(** * FIR document service: text extraction, FIR generation, download, audit

    Shallow embedding of the two FastAPI back ends of the repository,

    - [Backend]: [src/backend/app/main.py], the authenticated variant with
      the audit log, and
    - [Main]: [src/main.py], the unauthenticated variant,

    together with the pieces of the Python runtime they rely on: [str]
    methods, [os.path] (POSIX flavour), [uuid], IEEE-754 doubles for the
    page coordinates, a file system and the audit table.

    Conventions.  A Python [str] is the list of its Unicode code points.
    Floats are Rocq's primitive binary64 floats, so the page arithmetic is
    the arithmetic CPython performs.  A handler is a function from the
    state of the world to a result (a value or a raised exception) and the
    new state.  Calls into third-party libraries whose result depends on
    data we do not model (PDF parsing, PDF rendering, JWT verification,
    font metrics) are the fields of the class [External]; every theorem
    holds for every instance of it.

    The file system maps a path, as the string the program passes to the
    operating system, to the content of a regular file; which paths name
    a directory is given by the class [Platform].  The SQLite file of the
    audit table is represented by the table itself, [audit_logs], and is
    not among these files.  Links and the resolution of [.] and [..] in
    the middle of a path are not represented.  Writing a file and
    committing a row succeed: the output directory exists (it is created
    at import time) and is writable.  The route [/] is left out;
    [UserInDB] and [User] are one record. *)

From Stdlib Require Import ZArith NArith List String Ascii Floats Lia.
From stdpp Require Import gmap list.

Set Warnings "-inexact-float".
Open Scope N_scope.

(** ** Python strings *)

Abbreviation str := (list N).
Abbreviation bytes := (list Byte.byte).

Module PyStr.

(** A literal of the source, written as a Rocq string of ASCII
    characters. *)
Definition lit (s : string) : str :=
  List.map N_of_ascii (list_ascii_of_string s).

Definition newline : N := 10.

(** [str.isspace] on one code point (CPython's [_PyUnicode_IsWhitespace]). *)
Definition isspace (c : N) : bool :=
  ((9 <=? c) && (c <=? 13)) || ((28 <=? c) && (c <=? 32))
  || (c =? 133) || (c =? 160) || (c =? 5760)
  || ((8192 <=? c) && (c <=? 8202))
  || (c =? 8232) || (c =? 8233) || (c =? 8239) || (c =? 8287)
  || (c =? 12288).

Fixpoint lstrip (s : str) : str :=
  match s with
  | c :: s' => if isspace c then lstrip s' else s
  | [] => []
  end.

Definition rstrip (s : str) : str := rev (lstrip (rev s)).

(** [s.strip()] *)
Definition strip (s : str) : str := rstrip (lstrip s).

(** [s.split(sep)] for a separator of one character: every occurrence
    of [sep] ends a segment, empty segments are kept. *)
Fixpoint split (sep : N) (s : str) : list str :=
  match s with
  | [] => [[]]
  | c :: s' =>
      if c =? sep then [] :: split sep s'
      else match split sep s' with
           | seg :: segs => (c :: seg) :: segs
           | [] => [[c]]
           end
  end.

(** [sep.join(parts)] *)
Fixpoint join (sep : str) (parts : list str) : str :=
  match parts with
  | [] => []
  | [p] => p
  | p :: ps => p ++ sep ++ join sep ps
  end.

(** [s.count(c)] for one character. *)
Definition count (c : N) (s : str) : nat :=
  length (List.filter (N.eqb c) s).

(** [a == b] *)
Fixpoint eqb (a b : str) : bool :=
  match a, b with
  | [], [] => true
  | x :: a', y :: b' => (x =? y) && eqb a' b'
  | _, _ => false
  end.

(** [s.startswith(c)], [s.endswith(c)] for one character. *)
Definition startswith (c : N) (s : str) : bool :=
  match s with
  | x :: _ => x =? c
  | [] => false
  end.

Definition endswith (c : N) (s : str) : bool := startswith c (rev s).

(** [s.rfind(c)]: the highest index of [c] in [s], or -1. *)
Fixpoint rfind (c : N) (s : str) : Z :=
  match s with
  | [] => (-1)%Z
  | x :: s' =>
      let r := rfind c s' in
      if (r =? -1)%Z then (if x =? c then 0%Z else (-1)%Z) else (r + 1)%Z
  end.

(** [s[i:]] for [0 <= i]. *)
Definition slice_from (i : Z) (s : str) : str := drop (Z.to_nat i) s.

End PyStr.

(** ** [os.path] (posixpath) *)

Module PosixPath.
Import PyStr.

Definition sep : N := 47.

(** [os.path.join(a, b)] *)
Definition join (a b : str) : str :=
  if startswith sep b then b
  else if (match a with [] => true | _ => false end) || endswith sep a
       then a ++ b
       else a ++ [sep] ++ b.

(** [os.path.basename(p)] *)
Definition basename (p : str) : str :=
  let i := (rfind sep p + 1)%Z in
  slice_from i p.

End PosixPath.

(** ** [uuid] *)

Module Uuid.
Import PyStr.

(** One lower-case hexadecimal digit. *)
Definition hexdigit (n : N) : N := if n <? 10 then 48 + n else 87 + n.

(** ['%032x' % int] *)
Definition hex32 (u : N) : str :=
  List.map (fun i => hexdigit ((u / 16 ^ N.of_nat i) mod 16)) (rev (seq 0 32)).

(** [str(u)] for a [uuid.UUID] whose 128-bit integer is [u]:
    the groups 8-4-4-4-12 of its 32 hexadecimal digits. *)
Definition to_str (u : N) : str :=
  let h := hex32 u in
  take 8 h ++ lit "-" ++ take 4 (drop 8 h) ++ lit "-"
    ++ take 4 (drop 12 h) ++ lit "-" ++ take 4 (drop 16 h) ++ lit "-"
    ++ drop 20 h.

End Uuid.

(** ** Exceptions, results and the state of the world *)

Inductive exn :=
| HTTPException (status_code : Z) (detail : str) (headers : list (str * str))
| FileNotFoundError (path : str)
| LibraryError (what : str).

Inductive result (A : Type) :=
| Ok (a : A)
| Raise (e : exn).
Arguments Ok {A} a.
Arguments Raise {A} e.

(** A row of the table [audit_logs]. *)
Module AuditLog.
Record t := mk { id : Z; username : str; action : str; timestamp : Z }.
End AuditLog.

(** The files of the server (path to content), the rows of [audit_logs]
    in insertion order, and the clock read by [datetime.utcnow]. *)
Record World := mkWorld {
  fs : gmap str bytes;
  audit_logs : list AuditLog.t;
  utcnow : Z
}.

Definition M (A : Type) : Type := World -> result A * World.

#[global] Instance M_ret : MRet M := fun A a w => (Ok a, w).
#[global] Instance M_bind : MBind M := fun A B k m w =>
  match m w with
  | (Ok a, w') => k a w'
  | (Raise e, w') => (Raise e, w')
  end.

Definition raise {A} (e : exn) : M A := fun w => (Raise e, w).

(** A computation that does not touch the world. *)
Definition lift {A} (r : result A) : M A := fun w => (r, w).

(** [try: body finally: cleanup].  The cleanup runs whether or not the
    body raised; an exception of the cleanup replaces the outcome of the
    body. *)
Definition try_finally {A} (body : M A) (cleanup : M unit) : M A := fun w =>
  let '(r, w1) := body w in
  match cleanup w1 with
  | (Ok _, w2) => (r, w2)
  | (Raise e, w2) => (Raise e, w2)
  end.

(** ** Files *)

(** The directories of the server.  The program creates its output
    directory when the module is imported
    ([os.makedirs(OUTPUT_DIR, exist_ok=True)]) and creates or removes
    none afterwards; like every directory it has the entries [.] (itself)
    and [..] (its parent). *)
Class Platform := {
  (** [os.path.isdir(path)] *)
  isdir : str -> bool;
  output_dir_dot : isdir (PyStr.lit "generated_pdfs/.") = true;
  output_dir_dotdot : isdir (PyStr.lit "generated_pdfs/..") = true
}.

Module Os.

(** [with open(path, "wb") as f: f.write(data)] *)
Definition write_file (path : str) (data : bytes) : M unit := fun w =>
  (Ok tt, mkWorld (<[path := data]> (fs w)) (audit_logs w) (utcnow w)).

(** [os.remove(path)] *)
Definition remove (path : str) : M unit := fun w =>
  match fs w !! path with
  | Some _ => (Ok tt, mkWorld (delete path (fs w)) (audit_logs w) (utcnow w))
  | None => (Raise (FileNotFoundError path), w)
  end.

(** [os.path.exists(path)]: true of a directory as of a regular file. *)
Definition path_exists `{Platform} (path : str) : M bool := fun w =>
  (Ok (isdir path || bool_decide (is_Some (fs w !! path))), w).

End Os.

(** ** What a handler returns *)

Inductive Response :=
| JSON (body : list (str * str))
    (** a [dict]: sent with status 200 as a JSON object *)
| FileResponse (path filename media_type : str).

(** The bytes a response streams, read from the file system when the
    response is sent. *)
Definition streamed (r : Response) (w : World) : option bytes :=
  match r with
  | FileResponse path _ _ => fs w !! path
  | JSON _ => None
  end.

(** Sending a [FileResponse] (Starlette's [FileResponse.__call__]): the
    path is looked at again; a regular file is streamed, and for
    anything else [RuntimeError] is raised, which the client receives as
    a 500. *)
Definition send_file `{Platform} (path : str) : M bytes := fun w =>
  if isdir path
  then (Raise (LibraryError (PyStr.lit "RuntimeError: File at path " ++ path
                               ++ PyStr.lit " is not a file.")), w)
  else match fs w !! path with
       | Some content => (Ok content, w)
       | None =>
           (Raise (LibraryError (PyStr.lit "RuntimeError: File at path " ++ path
                                   ++ PyStr.lit " does not exist.")), w)
       end.

(** ** reportlab *)

Module ReportLab.
Import PyStr.

(** [reportlab.lib.units] and [reportlab.lib.pagesizes] *)
Definition inch : float := 72.
Definition cm : float := (inch / 2.54)%float.
Definition mm : float := (cm * 0.1)%float.
Definition A4 : float * float := ((210 * mm)%float, (297 * mm)%float).

Inductive Color := black.

(** The drawing calls a canvas has received, oldest first. *)
Inductive op :=
| SetFont (psfontname : str) (size : Z)
| DrawString (x y : float) (text : str)
| ShowPage
| Line (x1 y1 x2 y2 : float)
| SetStrokeColor (c : Color)
| Rect (x y width height : float) (stroke fill : Z).

Record Canvas := mkCanvas {
  filename : str;
  pagesize : float * float;
  code : list op
}.

Definition new (filename : str) (pagesize : float * float) : Canvas :=
  mkCanvas filename pagesize [].

Definition emit (c : Canvas) (o : op) : Canvas :=
  mkCanvas (filename c) (pagesize c) (code c ++ [o]).

Definition setFont (c : Canvas) (psfontname : str) (size : Z) : Canvas :=
  emit c (SetFont psfontname size).
Definition drawString (c : Canvas) (x y : float) (text : str) : Canvas :=
  emit c (DrawString x y text).
Definition showPage (c : Canvas) : Canvas := emit c ShowPage.
Definition line (c : Canvas) (x1 y1 x2 y2 : float) : Canvas :=
  emit c (Line x1 y1 x2 y2).
Definition setStrokeColor (c : Canvas) (col : Color) : Canvas :=
  emit c (SetStrokeColor col).
Definition rect (c : Canvas) (x y width height : float) (stroke fill : Z)
  : Canvas :=
  emit c (Rect x y width height stroke fill).

(** A Python [int] used where a float is expected. *)
Definition of_int (z : Z) : float :=
  if (z <? 0)%Z then (- PrimFloat.of_uint63 (Uint63.of_Z (- z)))%float
  else PrimFloat.of_uint63 (Uint63.of_Z z).

(** How many text strings a list of drawing calls draws. *)
Definition is_drawString (o : op) : bool :=
  match o with
  | DrawString _ _ _ => true
  | _ => false
  end.
Definition drawn_strings (ops : list op) : nat :=
  length (List.filter is_drawString ops).

End ReportLab.

(** ** Third-party calls left abstract *)

Class External := {
  (** [jwt.decode(token, key, algorithms)] at the time [now], followed by
      [payload.get("sub")]: [None] when [JWTError] is raised (bad
      signature, expired, malformed), otherwise the subject claim, if
      any. *)
  jwt_decode : Z -> str -> str -> list str -> option (option str);
  (** [pdfplumber.open] on the content of a file: an exception, or the
      pages, each given by what its [extract_text()] does. *)
  pdfplumber_parse : bytes -> exn + list (exn + option str);
  (** The PDF document [Canvas.save] writes for a list of drawing calls. *)
  render : list ReportLab.op -> bytes;
  (** [Canvas.stringWidth(text, fontName, fontSize)] *)
  stringWidth : str -> str -> Z -> float
}.

(** [Canvas.save()]: the document is written to the file the canvas was
    created for. *)
Definition save `{External} (c : ReportLab.Canvas) : M unit :=
  Os.write_file (ReportLab.filename c) (render (ReportLab.code c)).

(** [pdfplumber.open(path)] and the walk over [pdf.pages] share the
    accumulation loop of both variants:
    [text = page.extract_text(); if text: extracted_text += text + "\n"]. *)
Module PdfPlumber.
Import PyStr.

Definition open `{External} (path : str) : M (list (exn + option str)) :=
  fun w =>
    match fs w !! path with
    | None => (Raise (FileNotFoundError path), w)
    | Some data =>
        match pdfplumber_parse data with
        | inl e => (Raise e, w)
        | inr pages => (Ok pages, w)
        end
    end.

Fixpoint extract_loop (pages : list (exn + option str)) (extracted_text : str)
  : result str :=
  match pages with
  | [] => Ok extracted_text
  | inl e :: _ => Raise e
  | inr (Some (c :: text)) :: rest =>
      extract_loop rest (extracted_text ++ (c :: text) ++ [newline])
  | inr _ :: rest => extract_loop rest extracted_text
  end.

End PdfPlumber.

(** ** The authenticated variant: [src/backend/app/main.py] *)

Module User.
Record t := mk {
  username : str;
  full_name : option str;
  disabled : option bool;
  hashed_password : str
}.
End User.

Module Backend.
Import PyStr ReportLab.

Definition SECRET_KEY : str := lit "your-secret-key".
Definition ALGORITHM : str := lit "HS256".
Definition OUTPUT_DIR : str := lit "generated_pdfs".

Definition fake_users_db : gmap str User.t :=
  {[ lit "admin" :=
       User.mk (lit "admin") (Some (lit "Admin User")) (Some false)
         (lit "$2b$12$KIXQ1q6v6q6q6q6q6q6q6u6q6q6q6q6q6q6q6q6q6q6q6q6q6q6q6") ]}.

Definition get_user (db : gmap str User.t) (username : str) : option User.t :=
  db !! username.

(** The dependency [oauth2_scheme = OAuth2PasswordBearer(tokenUrl="token")]
    of FastAPI, applied to the bearer token of the [Authorization] header,
    if the request carries one: without a token it raises its own 401. *)
Definition oauth2_scheme (authorization : option str) : M str :=
  match authorization with
  | Some token => mret token
  | None =>
      raise (HTTPException 401 (lit "Not authenticated")
               [(lit "WWW-Authenticate", lit "Bearer")])
  end.

Definition credentials_exception : exn :=
  HTTPException 401 (lit "Could not validate credentials")
    [(lit "WWW-Authenticate", lit "Bearer")].

Definition get_current_user `{External} (token : str) : M User.t := fun w =>
  match jwt_decode (utcnow w) token SECRET_KEY [ALGORITHM] with
  | None => (Raise credentials_exception, w)
  | Some None => (Raise credentials_exception, w)
  | Some (Some username) =>
      match get_user fake_users_db username with
      | None => (Raise credentials_exception, w)
      | Some user => (Ok user, w)
      end
  end.

Definition get_current_active_user (current_user : User.t) : M User.t :=
  match User.disabled current_user with
  | Some true => raise (HTTPException 400 (lit "Inactive user") [])
  | _ => mret current_user
  end.

(** [Depends(get_current_active_user)] as FastAPI resolves it for a
    request. *)
Definition depends_current_active_user `{External} (authorization : option str)
  : M User.t :=
  token ← oauth2_scheme authorization;
  current_user ← get_current_user token;
  get_current_active_user current_user.

(** [log_action(SessionLocal(), username, action)]: one row, with the next
    primary key and the default timestamp, added and committed. *)
Definition log_action (username action : str) : M unit := fun w =>
  let log :=
    AuditLog.mk (Z.of_nat (length (audit_logs w)) + 1) username action (utcnow w) in
  (Ok tt, mkWorld (fs w) (audit_logs w ++ [log]) (utcnow w)).

(** [uuid] is the integer of the [uuid.uuid4()] drawn by the call, [file]
    the bytes [await file.read()] returns. *)
Definition upload_pdf `{External} (uuid : N) (file : bytes) (current_user : User.t)
  : M Response :=
  let temp_filename := lit "temp_" ++ Uuid.to_str uuid ++ lit ".pdf" in
  Os.write_file temp_filename file;;
  extracted_text ←
    try_finally
      (pages ← PdfPlumber.open temp_filename;
       lift (PdfPlumber.extract_loop pages []))
      (Os.remove temp_filename);
  log_action (User.username current_user) (lit "Uploaded PDF and extracted text");;
  mret (JSON [(lit "extracted_text", strip extracted_text)]).

(** The title block: the canvas and the cursor [y] at loop entry. *)
Definition fir_header (c : Canvas) (height : float)
    (fir_no victim_name fraud_amount : str) : Canvas * float :=
  let y := (height - 50)%float in
  let c := setFont c (lit "Helvetica-Bold") 16 in
  let c := drawString c 50 y (lit "FIR No.: " ++ fir_no) in
  let y := (y - 30)%float in
  let c := setFont c (lit "Helvetica") 12 in
  let c := drawString c 50 y (lit "Victim Name: " ++ victim_name) in
  let y := (y - 20)%float in
  let c := drawString c 50 y (lit "Fraud Amount: " ++ fraud_amount) in
  let y := (y - 40)%float in
  let c := setFont c (lit "Helvetica-Bold") 14 in
  let c := drawString c 50 y (lit "Complaint Details:") in
  let y := (y - 20)%float in
  let c := setFont c (lit "Helvetica") 11 in
  (c, y).

(** One turn of [for line in complaint_text.split("\n")]. *)
Definition layout_line (height : float) (st : Canvas * float) (line : str)
  : Canvas * float :=
  let '(c, y) := st in
  let '(c, y) :=
    if (y <? 50)%float then (showPage c, (height - 50)%float) else (c, y) in
  let c := drawString c 50 y (strip line) in
  (c, (y - 15)%float).

Definition layout_complaint (height : float) (st : Canvas * float)
    (complaint_text : str) : Canvas * float :=
  fold_left (layout_line height) (split newline complaint_text) st.

(** The canvas of [generate_fir] when [c.save()] is reached. *)
Definition fir_canvas (output_filename fir_no victim_name fraud_amount
    complaint_text : str) : Canvas :=
  let c := ReportLab.new output_filename A4 in
  let '(width, height) := A4 in
  let st := fir_header c height fir_no victim_name fraud_amount in
  fst (layout_complaint height st complaint_text).

Definition generate_fir `{External} (uuid : N)
    (fir_no victim_name fraud_amount complaint_text : str)
    (current_user : User.t) : M Response :=
  let output_filename := OUTPUT_DIR ++ lit "/FIR_" ++ Uuid.to_str uuid ++ lit ".pdf" in
  let c := fir_canvas output_filename fir_no victim_name fraud_amount
             complaint_text in
  save c;;
  log_action (User.username current_user)
    (lit "Generated FIR PDF " ++ output_filename);;
  mret (JSON [(lit "download_link",
               lit "/download/" ++ PosixPath.basename output_filename)]).

Definition download_file `{Platform} (filename : str) (current_user : User.t)
  : M Response :=
  let file_path := PosixPath.join OUTPUT_DIR filename in
  present ← Os.path_exists file_path;
  if present : bool
  then mret (FileResponse file_path filename (lit "application/pdf"))
  else mret (JSON [(lit "error", lit "File not found")]).

(** The three protected routes: the dependency first, then the required
    fields, then the handler. *)
Definition route_upload `{External} (authorization : option str) (uuid : N)
    (file : bytes) : M Response :=
  current_user ← depends_current_active_user authorization;
  upload_pdf uuid file current_user.

(** The answer of FastAPI when a field declared [Form(...)] is missing
    from the request; an empty value counts as missing. *)
Definition validation_error : exn :=
  HTTPException 422 (lit "Field required") [].

Definition required (fields : list str) : M unit :=
  if forallb (fun field => negb (eqb field [])) fields
  then mret tt
  else raise validation_error.

Definition route_generate `{External} (authorization : option str) (uuid : N)
    (fir_no victim_name fraud_amount complaint_text : str) : M Response :=
  current_user ← depends_current_active_user authorization;
  required [fir_no; victim_name; fraud_amount; complaint_text];;
  generate_fir uuid fir_no victim_name fraud_amount complaint_text current_user.

Definition route_download `{External} `{Platform} (authorization : option str)
    (filename : str) : M Response :=
  current_user ← depends_current_active_user authorization;
  download_file filename current_user.

End Backend.

(** ** The unauthenticated variant: [src/main.py] *)

Module Main.
Import PyStr ReportLab.

Definition OUTPUT_DIR : str := lit "generated_pdfs".

Definition upload_pdf `{External} (uuid : N) (file : bytes) : M Response :=
  let temp_filename := lit "temp_" ++ Uuid.to_str uuid ++ lit ".pdf" in
  Os.write_file temp_filename file;;
  pages ← PdfPlumber.open temp_filename;
  extracted_text ← lift (PdfPlumber.extract_loop pages []);
  Os.remove temp_filename;;
  mret (JSON [(lit "extracted_text", strip extracted_text)]).

(** [for i in range(7): c.line(...)] *)
Definition notes_rules (c : Canvas) (notes_left notes_width line_y : float)
    (line_spacing : Z) : Canvas :=
  fold_left
    (fun c i =>
       let dy := of_int (Z.of_nat i * line_spacing) in
       line c notes_left (line_y - dy)%float (notes_left + notes_width)%float
         (line_y - dy)%float)
    (seq 0 7) c.

(** The canvas of [generate_fir] when [c.save()] is reached. *)
Definition fir_canvas `{External} (output_filename fir_no fir_date section
    victim_name fraud_amount complaint_text : str) : Canvas :=
  let c := ReportLab.new output_filename A4 in
  let '(width, height) := A4 in
  let margin_left := (30 * mm)%float in
  let margin_top := (height - 30 * mm)%float in
  let line_height := 14%float in
  let c := setFont c (lit "Helvetica-Bold") 14 in
  let c := drawString c margin_left margin_top
             (lit "FIR no.: " ++ fir_no ++ lit " dated " ++ fir_date) in
  let c := setFont c (lit "Helvetica-Bold") 12 in
  let c := drawString c margin_left (margin_top - line_height * 1.5)%float
             (lit "Under Section: " ++ section) in
  let c := drawString c margin_left (margin_top - line_height * 3)%float
             (lit "Victim" ++ [8217%N] ++ lit "s Name: " ++ victim_name) in
  let c := drawString c margin_left (margin_top - line_height * 4.5)%float
             (lit "Total Fraud Amount: " ++ fraud_amount ++ lit " /- INR") in
  let notes_top := (margin_top - line_height * 6.5)%float in
  let notes_left := margin_left in
  let notes_width := (width - 2 * margin_left)%float in
  let c := setFont c (lit "Helvetica") 11 in
  let c := drawString c notes_left notes_top (lit "Notes:-") in
  let line_y := (notes_top - 10)%float in
  let line_spacing := 15%Z in
  let c := notes_rules c notes_left notes_width line_y line_spacing in
  let flowchart_title_y := (line_y - of_int (line_spacing * 8) - 10)%float in
  let c := setFont c (lit "Helvetica-BoldOblique") 14 in
  let flowchart_title := lit "Flow Chart" in
  let text_width := stringWidth flowchart_title (lit "Helvetica-BoldOblique") 14 in
  let c := drawString c ((width - text_width) / 2)%float flowchart_title_y
             flowchart_title in
  let c := line c ((width - text_width) / 2)%float (flowchart_title_y - 2)%float
             ((width + text_width) / 2)%float (flowchart_title_y - 2)%float in
  let flowchart_box_top := (flowchart_title_y - 20)%float in
  let flowchart_box_left := margin_left in
  let flowchart_box_width := (width - 2 * margin_left)%float in
  let flowchart_box_height := 200%float in
  let c := setStrokeColor c black in
  let c := rect c flowchart_box_left (flowchart_box_top - flowchart_box_height)%float
             flowchart_box_width flowchart_box_height 1 0 in
  let c := setFont c (lit "Helvetica") 10 in
  let placeholder_text := lit "Flow chart diagram goes here" in
  let text_width := stringWidth placeholder_text (lit "Helvetica") 10 in
  let c := drawString c ((width - text_width) / 2)%float
             (flowchart_box_top - flowchart_box_height / 2)%float
             placeholder_text in
  c.

Definition generate_fir `{External} (uuid : N)
    (fir_no fir_date section victim_name fraud_amount complaint_text : str)
  : M Response :=
  let output_filename := OUTPUT_DIR ++ lit "/FIR_" ++ Uuid.to_str uuid ++ lit ".pdf" in
  let c := fir_canvas output_filename fir_no fir_date section victim_name
             fraud_amount complaint_text in
  save c;;
  mret (JSON [(lit "download_link",
               lit "/download/" ++ PosixPath.basename output_filename)]).

Definition download_file `{Platform} (filename : str) : M Response :=
  let file_path := PosixPath.join OUTPUT_DIR filename in
  present ← Os.path_exists file_path;
  if present : bool
  then mret (FileResponse file_path filename (lit "application/pdf"))
  else mret (JSON [(lit "error", lit "File not found")]).

End Main.

(** ** Vocabulary of the statements *)

Module Spec.
Import PyStr.

(** The name of the transient file of an upload. *)
Definition temp_filename (uuid : N) : str :=
  lit "temp_" ++ Uuid.to_str uuid ++ lit ".pdf".

(** What opening the uploaded bytes and walking the pages comes to. *)
Definition extraction `{External} (file : bytes) : result str :=
  match pdfplumber_parse file with
  | inl e => Raise e
  | inr pages => PdfPlumber.extract_loop pages []
  end.

(** The texts of the pages that have some: a page whose [extract_text()]
    is [None] or [""] contributes nothing. *)
Definition visible (texts : list (option str)) : list str :=
  omap (fun t => match t with
                 | Some (c :: s) => Some (c :: s)
                 | _ => None
                 end) texts.

(** The name and the path of the document a generation writes. *)
Definition fir_name (uuid : N) : str :=
  lit "FIR_" ++ Uuid.to_str uuid ++ lit ".pdf".
Definition fir_path (uuid : N) : str := lit "generated_pdfs/" ++ fir_name uuid.

(** The path [download_file] looks up for a file name, spelled out. *)
Definition download_path (filename : str) : str :=
  if startswith PosixPath.sep filename then filename
  else lit "generated_pdfs/" ++ filename.

Definition not_found : Response := JSON [(lit "error", lit "File not found")].

(** The page height [generate_fir] works with. *)
Definition height : float := snd ReportLab.A4.

(** A drawn string lies between the bottom margin and the top margin. *)
Definition within_margins (o : ReportLab.op) : bool :=
  match o with
  | ReportLab.DrawString _ y _ => (50 <=? y)%float && (y <=? height - 50)%float
  | _ => true
  end.

(** Where a complaint line is drawn when the cursor is [y] at the top of
    the loop body, and the cursor after that line. *)
Definition draw_y (y : float) : float :=
  if (y <? 50)%float then (height - 50)%float else y.
Definition next_y (y : float) : float := (draw_y y - 15)%float.

(** The first [n] cursor values from [y] on. *)
Fixpoint trajectory (n : nat) (y : float) : list float :=
  match n with
  | O => []
  | S n => y :: trajectory n (next_y y)
  end.

(** The cursor at loop entry, and the values it can take afterwards:
    44 on the first page, then the 50 of every further page. *)
Definition cursor_start : float := (height - 50 - 30 - 20 - 40 - 20)%float.
Definition cursor_orbit : list float := trajectory 94 cursor_start.

(** The row [log_action] adds in the world [w]. *)
Definition logged (w : World) (username action : str) : AuditLog.t :=
  AuditLog.mk (Z.of_nat (length (audit_logs w)) + 1) username action (utcnow w).

End Spec.

(** ** Sample environments and inputs *)

Module Samples.
Import PyStr.

(** A token verifier: the token [good] is a valid token of [admin],
    [nosub] is validly signed but has no subject, [ghost] is validly
    signed for a user the table does not know, and everything else is
    rejected. *)
Definition verify (token : str) : option (option str) :=
  if eqb token (lit "good") then Some (Some (lit "admin"))
  else if eqb token (lit "nosub") then Some None
  else if eqb token (lit "ghost") then Some (Some (lit "ghost"))
  else None.

(** A PDF library for which every upload is one page with the given
    [extract_text()], a token verifier [verify], fixed font metrics and
    a renderer that ignores the drawing calls. *)
Definition one_page (text : option str)
    (verify : str -> option (option str)) : External := {|
  jwt_decode := fun _ token _ _ => verify token;
  pdfplumber_parse := fun _ => inr [inr text];
  render := fun _ => [];
  stringWidth := fun _ _ _ => 60%float
|}.

(** A PDF library that rejects every upload. *)
Definition unparseable : External := {|
  jwt_decode := fun _ _ _ _ => None;
  pdfplumber_parse := fun _ => inl (LibraryError (lit "PDFSyntaxError"));
  render := fun _ => [];
  stringWidth := fun _ _ _ => 60%float
|}.

Definition empty_world : World := mkWorld ∅ [] 0.

(** A server whose directories are its working directory and the output
    directory in it. *)
Definition posix : Platform := {|
  isdir := fun path =>
    existsb (eqb path)
      [lit "."; lit ".."; lit "generated_pdfs"; lit "generated_pdfs/";
       lit "generated_pdfs/."; lit "generated_pdfs/.."];
  output_dir_dot := eq_refl;
  output_dir_dotdot := eq_refl
|}.

Definition admin : User.t :=
  User.mk (lit "admin") (Some (lit "Admin User")) (Some false)
    (lit "$2b$12$KIXQ1q6v6q6q6q6q6q6q6u6q6q6q6q6q6q6q6q6q6q6q6q6q6q6q6").

Definition disabled_user : User.t :=
  User.mk (lit "bob") None (Some true) (lit "").

End Samples.

(** ** The login route of the authenticated variant *)

(** A value of the claims [dict] of a token: the subject is a string,
    the expiry a [datetime]. *)
Inductive claim :=
| ClaimStr (s : str)
| ClaimTime (t : Z).

(** The calls of the login path into passlib and python-jose. *)
Class Credentials := {
  (** [pwd_context.verify(plain_password, hashed_password)]: whether the
      password matches, or the exception passlib raises for a hash it
      cannot read. *)
  pwd_verify : str -> str -> result bool;
  (** [jwt.encode(claims, key, algorithm=algorithm)] *)
  jwt_encode : gmap str claim -> str -> str -> str
}.

Module BackendLogin.
Import PyStr.

Definition ACCESS_TOKEN_EXPIRE_MINUTES : Z := 30.

(** [timedelta(minutes=m)], in the unit of the clock (microseconds). *)
Definition minutes (m : Z) : Z := (m * 60000000)%Z.

Definition verify_password `{Credentials} (plain_password hashed_password : str)
  : M bool :=
  lift (pwd_verify plain_password hashed_password).

(** [None] stands for the [False] the source returns. *)
Definition authenticate_user `{Credentials} (db : gmap str User.t)
    (username password : str) : M (option User.t) :=
  match Backend.get_user db username with
  | None => mret None
  | Some user =>
      ok ← verify_password password (User.hashed_password user);
      if ok : bool then mret (Some user) else mret None
  end.

(** [expires_delta if expires_delta else timedelta(minutes=15)]: a
    [timedelta] is false when it is zero. *)
Definition create_access_token `{Credentials} (data : gmap str claim)
    (expires_delta : option Z) : M str := fun w =>
  let to_encode := data in
  let delta :=
    match expires_delta with
    | Some d => if (d =? 0)%Z then minutes 15 else d
    | None => minutes 15
    end in
  let expire := (utcnow w + delta)%Z in
  let to_encode := <[lit "exp" := ClaimTime expire]> to_encode in
  (Ok (jwt_encode to_encode Backend.SECRET_KEY Backend.ALGORITHM), w).

(** [POST /token] with the form fields [username] and [password]. *)
Definition login `{Credentials} (username password : str) : M Response :=
  user ← authenticate_user Backend.fake_users_db username password;
  match user with
  | None =>
      raise (HTTPException 400 (lit "Incorrect username or password") [])
  | Some user =>
      let access_token_expires := minutes ACCESS_TOKEN_EXPIRE_MINUTES in
      access_token ←
        create_access_token {[ lit "sub" := ClaimStr (User.username user) ]}
          (Some access_token_expires);
      mret (JSON [(lit "access_token", access_token);
                  (lit "token_type", lit "bearer")])
  end.

End BackendLogin.

(** ** Further vocabulary *)

Module Spec2.
Import PyStr.

(** The JWT library reads back the tokens of this program: a token made
    under [SECRET_KEY] and [ALGORITHM] from the two claims
    [create_access_token] gives it, a subject and an expiry, decodes
    under the same key and algorithm to that subject while the expiry is
    ahead. *)
Definition jwt_reads_back `{External} `{Credentials} : Prop :=
  forall now sub t,
    (now < t)%Z ->
    jwt_decode now
      (jwt_encode (<[lit "exp" := ClaimTime t]> {[ lit "sub" := ClaimStr sub ]})
         Backend.SECRET_KEY Backend.ALGORITHM)
      Backend.SECRET_KEY [Backend.ALGORITHM]
    = Some (Some sub).

(** How long a token of [create_access_token] lives: [expires_delta],
    or 15 minutes when it is missing or zero. *)
Definition lifetime (expires_delta : option Z) : Z :=
  match expires_delta with
  | Some d => if (d =? 0)%Z then BackendLogin.minutes 15 else d
  | None => BackendLogin.minutes 15
  end.

(** Whether the required form fields of [/generate/] all have a value. *)
Definition filled (fields : list str) : bool :=
  forallb (fun field => negb (eqb field [])) fields.

(** The strings a list of drawing calls draws, in order. *)
Definition drawn_texts (ops : list ReportLab.op) : list str :=
  omap (fun o => match o with
                 | ReportLab.DrawString _ _ text => Some text
                 | _ => None
                 end) ops.

(** How many times a list of drawing calls starts a new page. *)
Definition new_pages (ops : list ReportLab.op) : nat :=
  length (List.filter (fun o => match o with
                                | ReportLab.ShowPage => true
                                | _ => false
                                end) ops).

(** The position in [Spec.cursor_orbit] after the one at [i]: the first
    page runs through 0..43, every later page through 44..93. *)
Definition orbit_succ (i : nat) : nat := if (i =? 93)%nat then 44%nat else S i.

(** Whether the cursor at position [i] is below the bottom margin. *)
Definition orbit_low (i : nat) : bool := ((i =? 43) || (i =? 93))%nat.

(** The first and the last character of a string are not white space. *)
Definition trimmed (s : str) : Prop :=
  (forall c s', s = c :: s' -> isspace c = false)
  /\ (forall c s', s = s' ++ [c] -> isspace c = false).

End Spec2.

Module Samples2.
Import PyStr.

(** A token is the subject it was made for, and every password is [secret]. *)
Definition plain_tokens : Credentials := {|
  pwd_verify := fun plain _ => Ok (eqb plain (lit "secret"));
  jwt_encode := fun claims _ _ =>
    match claims !! lit "sub" with
    | Some (ClaimStr s) => s
    | _ => []
    end
|}.

(** The verifier that goes with [plain_tokens]. *)
Definition plain_external (text : option str) : External := {|
  jwt_decode := fun _ token _ _ => Some (Some token);
  pdfplumber_parse := fun _ => inr [inr text];
  render := fun ops => List.map (fun _ => Byte.x2e) ops;
  stringWidth := fun _ _ _ => 60%float
|}.

(** A PDF library whose second page fails. *)
Definition second_page_fails : External := {|
  jwt_decode := fun _ _ _ _ => None;
  pdfplumber_parse := fun _ =>
    inr [inr (Some (lit "one")); inl (LibraryError (lit "PDFSyntaxError"));
         inr (Some (lit "three"))];
  render := fun _ => [];
  stringWidth := fun _ _ _ => 60%float
|}.

End Samples2.

Module Pages.

(** How many of the next [n] turns of the complaint loop start a new
    page when the cursor is at position [i] of [Spec.cursor_orbit]. *)
Fixpoint pages_from (i n : nat) : nat :=
  match n with
  | O => O
  | S n => ((if Spec2.orbit_low i then 1 else 0) + pages_from (Spec2.orbit_succ i) n)%nat
  end.

End Pages.

(** * Properties *)

(** ** Strings, paths and identifiers *)

Section Strings.
Import PyStr.

Lemma split_nonempty sep s : split sep s <> [].
Proof.
  destruct s as [|c s]; simpl; [discriminate|].
  destruct (c =? sep); [discriminate|].
  destruct (split sep s); discriminate.
Qed.

Lemma split_length sep s : length (split sep s) = S (count sep s).
Proof.
  unfold count. induction s as [|c s IH]; simpl; [reflexivity|].
  rewrite (N.eqb_sym sep c).
  destruct (c =? sep); simpl; [now rewrite IH|].
  destruct (split sep s) eqn:E; [now apply split_nonempty in E|].
  simpl in *. exact IH.
Qed.

Lemma rfind_absent c s : Forall (fun x => x <> c) s -> rfind c s = (-1)%Z.
Proof.
  induction 1 as [|x s Hx _ IH]; simpl; [reflexivity|].
  rewrite IH. simpl. apply N.eqb_neq in Hx. now rewrite Hx.
Qed.

Lemma rfind_last c a b :
  Forall (fun x => x <> c) b -> rfind c (a ++ c :: b) = Z.of_nat (length a).
Proof.
  intros Hb. induction a as [|x a IH]; simpl.
  - rewrite (rfind_absent c b Hb). simpl. now rewrite N.eqb_refl.
  - rewrite IH. destruct (Z.eqb_spec (Z.of_nat (length a)) (-1)); lia.
Qed.

Lemma basename_app a b :
  Forall (fun x => x <> PosixPath.sep) b ->
  PosixPath.basename (a ++ PosixPath.sep :: b) = b.
Proof.
  intros Hb. unfold PosixPath.basename, slice_from.
  rewrite (rfind_last _ a b Hb).
  replace (Z.to_nat (Z.of_nat (length a) + 1)) with (length a + 1)%nat by lia.
  rewrite <- drop_drop, drop_app_length. reflexivity.
Qed.

Lemma hexdigit_no_sep n : n < 16 -> Uuid.hexdigit n <> PosixPath.sep.
Proof.
  unfold Uuid.hexdigit, PosixPath.sep. intros Hn.
  destruct (N.ltb_spec n 10); lia.
Qed.

Lemma hex32_no_sep u : Forall (fun x => x <> PosixPath.sep) (Uuid.hex32 u).
Proof.
  unfold Uuid.hex32. apply Forall_map, Forall_forall. intros i _.
  apply hexdigit_no_sep, N.mod_lt. discriminate.
Qed.

Lemma to_str_no_sep u : Forall (fun x => x <> PosixPath.sep) (Uuid.to_str u).
Proof.
  pose proof (hex32_no_sep u) as H. unfold Uuid.to_str.
  assert (Hd : Forall (fun x => x <> PosixPath.sep) (lit "-"))
    by (repeat constructor; discriminate).
  repeat apply Forall_app_2; auto using Forall_take, Forall_drop.
Qed.

Lemma lstrip_rev_snoc s c :
  isspace c = true -> lstrip (rev (s ++ [c])) = lstrip (rev s).
Proof. intros Hc. rewrite rev_app_distr. simpl. now rewrite Hc. Qed.

Lemma strip_snoc_space s c : isspace c = true -> strip (s ++ [c]) = strip s.
Proof.
  intros Hc. unfold strip. induction s as [|x s IH]; simpl.
  - now rewrite Hc.
  - destruct (isspace x); [exact IH|].
    unfold rstrip. f_equal.
    change (x :: s ++ [c]) with ((x :: s) ++ [c]).
    now apply lstrip_rev_snoc.
Qed.

End Strings.

(** ** Text extraction *)

(** Unfolds the monad and the file operations of a handler. *)
Ltac run :=
  unfold mbind, M_bind, mret, M_ret, raise, lift, try_finally,
    Os.write_file, Os.remove, Os.path_exists, PdfPlumber.open,
    Backend.log_action; simpl.

Section Upload.
Context `{External}.
Import PyStr Spec.

Lemma temp_file_gone (path : str) (data : bytes) (m : gmap str bytes) :
  delete path (<[path := data]> m) = delete path m.
Proof. apply delete_insert_eq. Qed.

(** The authenticated handler, by the outcome of the extraction. *)
Lemma backend_upload_run uuid file current_user w :
  Backend.upload_pdf uuid file current_user w =
  let w1 := mkWorld (delete (temp_filename uuid) (fs w)) (audit_logs w) (utcnow w) in
  match extraction file with
  | Ok text =>
      (Ok (JSON [(lit "extracted_text", strip text)]),
       mkWorld (fs w1)
         (audit_logs w ++
            [logged w (User.username current_user)
               (lit "Uploaded PDF and extracted text")])
         (utcnow w))
  | Raise e => (Raise e, w1)
  end.
Proof.
  unfold Backend.upload_pdf, extraction. fold (temp_filename uuid). run.
  rewrite lookup_insert_eq.
  destruct (pdfplumber_parse file) as [e|pages]; simpl.
  - rewrite lookup_insert_eq. simpl. now rewrite temp_file_gone.
  - rewrite lookup_insert_eq. simpl. rewrite temp_file_gone.
    destruct (PdfPlumber.extract_loop pages []); reflexivity.
Qed.

(** The unauthenticated handler, by the outcome of the extraction. *)
Lemma main_upload_run uuid file w :
  Main.upload_pdf uuid file w =
  match extraction file with
  | Ok text =>
      (Ok (JSON [(lit "extracted_text", strip text)]),
       mkWorld (delete (temp_filename uuid) (fs w)) (audit_logs w) (utcnow w))
  | Raise e =>
      (Raise e,
       mkWorld (<[temp_filename uuid := file]> (fs w)) (audit_logs w) (utcnow w))
  end.
Proof.
  unfold Main.upload_pdf, extraction. fold (temp_filename uuid). run.
  rewrite lookup_insert_eq.
  destruct (pdfplumber_parse file) as [e|pages]; simpl; [reflexivity|].
  destruct (PdfPlumber.extract_loop pages []); simpl; [|reflexivity].
  rewrite lookup_insert_eq. simpl. now rewrite temp_file_gone.
Qed.

Lemma extract_loop_texts texts acc :
  PdfPlumber.extract_loop (List.map inr texts) acc
  = Ok (acc ++ concat (List.map (fun t => t ++ [newline]) (visible texts))).
Proof.
  revert acc. induction texts as [|t texts IH]; intros acc; simpl.
  - now rewrite app_nil_r.
  - destruct t as [[|c s]|]; simpl; rewrite IH; try reflexivity.
    f_equal. rewrite <- app_assoc. simpl. now rewrite <- app_assoc.
Qed.

Lemma concat_lines_join (ts : list str) :
  ts <> [] ->
  concat (List.map (fun t => t ++ [newline]) ts) = join [newline] ts ++ [newline].
Proof.
  induction ts as [|p [|q r] IH]; intros Hne; [congruence| |].
  - simpl. now rewrite app_nil_r.
  - change (concat (List.map (fun t => t ++ [newline]) (p :: q :: r)))
      with ((p ++ [newline]) ++ concat (List.map (fun t => t ++ [newline]) (q :: r))).
    rewrite IH by discriminate.
    change (join [newline] (p :: q :: r))
      with (p ++ [newline] ++ join [newline] (q :: r)).
    now rewrite <- !app_assoc.
Qed.

Lemma strip_concat_lines (ts : list str) :
  strip (concat (List.map (fun t => t ++ [newline]) ts)) = strip (join [newline] ts).
Proof.
  destruct ts as [|p r]; [reflexivity|].
  rewrite concat_lines_join by discriminate.
  now apply strip_snoc_space.
Qed.

Lemma extraction_texts file texts :
  pdfplumber_parse file = inr (List.map inr texts) ->
  exists text, extraction file = Ok text
            /\ strip text = strip (join [newline] (visible texts)).
Proof.
  intros Hp. unfold extraction. rewrite Hp, extract_loop_texts. simpl.
  eexists; split; [reflexivity|]. apply strip_concat_lines.
Qed.

End Upload.

(** C2 (as far as the code goes): when the PDF library raises, the error
    propagates in both variants, but only the authenticated variant has
    removed the transient file; the unauthenticated variant leaves it on
    disk with the uploaded bytes. *)
Theorem upload_temp_file_after_error `{External} uuid file current_user w e :
  Spec.extraction file = Raise e ->
  (fst (Backend.upload_pdf uuid file current_user w) = Raise e
   /\ fs (snd (Backend.upload_pdf uuid file current_user w))
        !! Spec.temp_filename uuid = None)
  /\ (fst (Main.upload_pdf uuid file w) = Raise e
      /\ fs (snd (Main.upload_pdf uuid file w))
           !! Spec.temp_filename uuid = Some file).
Proof.
  intros He. rewrite backend_upload_run, main_upload_run, He. simpl.
  rewrite lookup_delete_eq, lookup_insert_eq. auto.
Qed.

Lemma upload_temp_file_after_error_witness :
  let ext := Samples.unparseable in
  let e := LibraryError (PyStr.lit "PDFSyntaxError") in
  Spec.extraction [] = Raise e
  /\ fst (Main.upload_pdf 7 [] Samples.empty_world) = Raise e
  /\ fs (snd (Main.upload_pdf 7 [] Samples.empty_world))
       !! Spec.temp_filename 7 = Some [].
Proof.
  intros ext e.
  assert (He : Spec.extraction [] = Raise e) by reflexivity.
  split; [exact He|].
  exact (proj2 (upload_temp_file_after_error 7 [] Samples.admin
                  Samples.empty_world e He)).
Defined.

(** In the authenticated variant the transient file is gone whatever the
    extraction did. *)
Lemma backend_upload_removes_temp_file `{External} uuid file current_user w :
  fs (snd (Backend.upload_pdf uuid file current_user w))
    !! Spec.temp_filename uuid = None.
Proof.
  rewrite backend_upload_run. simpl.
  destruct (Spec.extraction file); simpl; apply lookup_delete_eq.
Qed.

(** C5 as stated fails: a page whose text ends in a blank. *)
Lemma upload_strips_page_text :
  let ext := Samples.one_page (Some (PyStr.lit "x ")) (fun _ => None) in
  PyStr.join [PyStr.newline] (Spec.visible [Some (PyStr.lit "x ")]) = PyStr.lit "x "
  /\ fst (Main.upload_pdf 7 [] Samples.empty_world)
     = Ok (JSON [(PyStr.lit "extracted_text", PyStr.lit "x")])
  /\ fst (Backend.upload_pdf 7 [] Samples.admin Samples.empty_world)
     = Ok (JSON [(PyStr.lit "extracted_text", PyStr.lit "x")])
  /\ PyStr.lit "x" <> PyStr.lit "x ".
Proof. vm_compute. repeat split; discriminate. Qed.

Lemma visible_blank texts :
  Forall (fun t => t = None \/ t = Some []) texts -> Spec.visible texts = [].
Proof.
  induction 1 as [|t texts [-> | ->] _ IH]; simpl; auto.
Qed.

(** C5 (amended): for an upload the PDF library parses, both variants
    return the texts of the pages that have some, joined by newline, with
    the white space at both ends of the whole removed; pages without text
    contribute nothing, and when no page has text the result is the empty
    string. *)
Theorem upload_returns_stripped_join `{External} uuid file current_user w texts :
  pdfplumber_parse file = inr (List.map inr texts) ->
  let text := PyStr.strip (PyStr.join [PyStr.newline] (Spec.visible texts)) in
  fst (Backend.upload_pdf uuid file current_user w)
    = Ok (JSON [(PyStr.lit "extracted_text", text)])
  /\ fst (Main.upload_pdf uuid file w)
    = Ok (JSON [(PyStr.lit "extracted_text", text)])
  /\ (Forall (fun t => t = None \/ t = Some []) texts -> text = []).
Proof.
  intros Hp text.
  destruct (extraction_texts file texts Hp) as (raw & Hraw & Hstrip).
  rewrite backend_upload_run, main_upload_run, Hraw. simpl.
  rewrite Hstrip. repeat split.
  intros Hblank. unfold text. now rewrite (visible_blank texts Hblank).
Qed.

Lemma upload_returns_stripped_join_witness :
  let ext := Samples.one_page (Some (PyStr.lit " a b ")) (fun _ => None) in
  fst (Backend.upload_pdf 7 [] Samples.admin Samples.empty_world)
    = Ok (JSON [(PyStr.lit "extracted_text", PyStr.lit "a b")])
  /\ fst (Main.upload_pdf 7 [] Samples.empty_world)
    = Ok (JSON [(PyStr.lit "extracted_text", PyStr.lit "a b")]).
Proof.
  intros ext.
  pose proof (upload_returns_stripped_join 7 [] Samples.admin
                Samples.empty_world [Some (PyStr.lit " a b ")] eq_refl)
    as (Hb & Hm & _).
  split; [exact Hb | exact Hm].
Defined.

(** ** Authentication *)

Section Auth.
Context `{External}.
Import PyStr.

(** Token validation proper never changes the world and fails with the
    credentials error only. *)
Lemma get_current_user_run token w :
  Backend.get_current_user token w = (Raise Backend.credentials_exception, w)
  \/ exists user, Backend.get_current_user token w = (Ok user, w)
       /\ Backend.fake_users_db !! User.username user = Some user.
Proof.
  unfold Backend.get_current_user, Backend.get_user.
  destruct (jwt_decode _ _ _ _) as [[username|]|]; auto.
  destruct (Backend.fake_users_db !! username) as [user|] eqn:E; auto.
  right. exists user. split; [reflexivity|].
  unfold Backend.fake_users_db in *.
  apply lookup_singleton_Some in E as [<- <-]. reflexivity.
Qed.

Lemma get_current_active_user_run current_user w :
  Backend.get_current_active_user current_user w =
  if decide (User.disabled current_user = Some true)
  then (Raise (HTTPException 400 (lit "Inactive user") []), w)
  else (Ok current_user, w).
Proof.
  unfold Backend.get_current_active_user.
  destruct (User.disabled current_user) as [[|]|]; reflexivity.
Qed.

(** The dependency leaves the world as it is. *)
Lemma depends_world authorization w :
  snd (Backend.depends_current_active_user authorization w) = w.
Proof.
  unfold Backend.depends_current_active_user, Backend.oauth2_scheme.
  destruct authorization as [token|]; run; [|reflexivity].
  destruct (get_current_user_run token w) as [-> | (user & -> & _)];
    [reflexivity|].
  rewrite get_current_active_user_run. now case_decide.
Qed.

End Auth.

(** C4 as stated fails: a disabled account is answered with status 400
    and the detail "Inactive user", not with the 401 credentials error. *)
Lemma disabled_account_gets_400 :
  fst (Backend.get_current_active_user Samples.disabled_user Samples.empty_world)
  = Raise (HTTPException 400 (PyStr.lit "Inactive user") [])
  /\ Backend.credentials_exception
     = HTTPException 401 (PyStr.lit "Could not validate credentials")
         [(PyStr.lit "WWW-Authenticate", PyStr.lit "Bearer")]
  /\ fst (Backend.get_current_active_user Samples.disabled_user
            Samples.empty_world)
     <> Raise Backend.credentials_exception.
Proof. split; [reflexivity|]. split; [reflexivity | discriminate]. Qed.

(** C4 (amended): a request without a token is refused with a 401 and
    the header [WWW-Authenticate: Bearer]; a token [jwt.decode] rejects
    (bad signature, expired), a token without subject and a subject that
    is not a known user are all refused with the one credentials error,
    again a 401 with that header.  A disabled account is refused with
    status 400 and the detail "Inactive user". *)
Theorem auth_failure_statuses `{External} :
  (forall w,
      Backend.depends_current_active_user None w
      = (Raise (HTTPException 401 (PyStr.lit "Not authenticated")
                  [(PyStr.lit "WWW-Authenticate", PyStr.lit "Bearer")]), w))
  /\ (forall token w,
         (jwt_decode (utcnow w) token Backend.SECRET_KEY [Backend.ALGORITHM] = None
          \/ jwt_decode (utcnow w) token Backend.SECRET_KEY [Backend.ALGORITHM]
             = Some None
          \/ exists username,
               jwt_decode (utcnow w) token Backend.SECRET_KEY [Backend.ALGORITHM]
               = Some (Some username)
               /\ Backend.fake_users_db !! username = None) ->
         Backend.get_current_user token w
         = (Raise Backend.credentials_exception, w)
         /\ Backend.depends_current_active_user (Some token) w
            = (Raise Backend.credentials_exception, w))
  /\ (forall authorization w e,
         fst ((token ← Backend.oauth2_scheme authorization;
               Backend.get_current_user token) w) = Raise e ->
         exists detail,
           e = HTTPException 401 detail
                 [(PyStr.lit "WWW-Authenticate", PyStr.lit "Bearer")]
           /\ (is_Some authorization -> e = Backend.credentials_exception))
  /\ (forall current_user w,
         User.disabled current_user = Some true ->
         Backend.get_current_active_user current_user w
         = (Raise (HTTPException 400 (PyStr.lit "Inactive user") []), w))
  /\ (forall current_user w,
         User.disabled current_user <> Some true ->
         Backend.get_current_active_user current_user w = (Ok current_user, w)).
Proof.
  split; [|split; [|split; [|split]]].
  - intros w. reflexivity.
  - intros token w Hbad.
    assert (Hu : Backend.get_current_user token w
                 = (Raise Backend.credentials_exception, w)).
    { unfold Backend.get_current_user, Backend.get_user.
      destruct Hbad as [-> | [-> | (username & -> & ->)]]; reflexivity. }
    split; [exact Hu|].
    unfold Backend.depends_current_active_user, Backend.oauth2_scheme. run.
    now rewrite Hu.
  - intros [token|] w e; run.
    + destruct (get_current_user_run token w) as [-> | (user & -> & _)];
        simpl; [|discriminate].
      intros [= <-]. eexists; split; [reflexivity | auto].
    + intros [= <-]. eexists; split; [reflexivity|].
      intros [? [=]].
  - intros current_user w Hd. rewrite get_current_active_user_run.
    now case_decide.
  - intros current_user w Hd. rewrite get_current_active_user_run.
    now case_decide.
Qed.

(** ** The audit log *)

(** A successful upload adds exactly one row, with the acting user. *)
Lemma upload_audited `{External} uuid file current_user w text :
  Spec.extraction file = Ok text ->
  audit_logs (snd (Backend.upload_pdf uuid file current_user w))
  = audit_logs w
      ++ [Spec.logged w (User.username current_user)
            (PyStr.lit "Uploaded PDF and extracted text")].
Proof. intros He. now rewrite backend_upload_run, He. Qed.

(** An upload whose extraction raises adds none. *)
Lemma failed_upload_not_audited `{External} uuid file current_user w e :
  Spec.extraction file = Raise e ->
  audit_logs (snd (Backend.upload_pdf uuid file current_user w)) = audit_logs w.
Proof. intros He. now rewrite backend_upload_run, He. Qed.

(** A generation adds exactly one row, with the acting user. *)
Lemma generate_audited `{External} uuid fir_no victim_name fraud_amount
    complaint_text current_user w :
  exists action,
    audit_logs (snd (Backend.generate_fir uuid fir_no victim_name fraud_amount
                       complaint_text current_user w))
    = audit_logs w ++ [Spec.logged w (User.username current_user) action].
Proof. eexists. unfold Backend.generate_fir, save. run. reflexivity. Qed.

(** C1, at the download: the handler returns its response without
    touching the world, so a successful download adds no row to
    [audit_logs]. *)
Theorem download_not_audited `{Platform} filename current_user w :
  (exists response,
      Backend.download_file filename current_user w = (Ok response, w))
  /\ audit_logs (snd (Backend.download_file filename current_user w))
     = audit_logs w.
Proof.
  unfold Backend.download_file. run.
  destruct (isdir _ || bool_decide _); simpl; eauto.
Qed.

(** ** Download *)

Section Download.
Context `{Platform}.
Import PyStr Spec.

Lemma join_output_dir filename :
  PosixPath.join (lit "generated_pdfs") filename = download_path filename.
Proof.
  unfold PosixPath.join, download_path.
  destruct (startswith PosixPath.sep filename); reflexivity.
Qed.

Lemma backend_download_run filename current_user w :
  Backend.download_file filename current_user w =
  (Ok (if isdir (download_path filename)
             || bool_decide (is_Some (fs w !! download_path filename))
       then FileResponse (download_path filename) filename (lit "application/pdf")
       else not_found), w).
Proof.
  unfold Backend.download_file, Backend.OUTPUT_DIR. rewrite join_output_dir. run.
  now destruct (isdir _ || bool_decide _).
Qed.

Lemma main_download_run filename w :
  Main.download_file filename w =
  (Ok (if isdir (download_path filename)
             || bool_decide (is_Some (fs w !! download_path filename))
       then FileResponse (download_path filename) filename (lit "application/pdf")
       else not_found), w).
Proof.
  unfold Main.download_file, Main.OUTPUT_DIR. rewrite join_output_dir. run.
  now destruct (isdir _ || bool_decide _).
Qed.

End Download.

(** C7, by what the joined path names.  A regular file: both variants
    answer with a [FileResponse] of media type [application/pdf], and
    sending it streams the file.  Nothing: both return the body
    [{"error": "File not found"}] as an ordinary value.  A directory, as
    for the file name [..]: [os.path.exists] is true, so both variants
    answer with a [FileResponse] all the same, and sending it raises
    [RuntimeError], a server error. *)
Theorem download_by_kind_of_path `{Platform} filename current_user w :
  let file_path := PosixPath.join Backend.OUTPUT_DIR filename in
  let pdf := FileResponse file_path filename (PyStr.lit "application/pdf") in
  (forall content,
      isdir file_path = false ->
      fs w !! file_path = Some content ->
      Backend.download_file filename current_user w = (Ok pdf, w)
      /\ Main.download_file filename w = (Ok pdf, w)
      /\ send_file file_path w = (Ok content, w))
  /\ (isdir file_path = false ->
      fs w !! file_path = None ->
      Backend.download_file filename current_user w
      = (Ok (JSON [(PyStr.lit "error", PyStr.lit "File not found")]), w)
      /\ Main.download_file filename w
      = (Ok (JSON [(PyStr.lit "error", PyStr.lit "File not found")]), w))
  /\ (isdir file_path = true ->
      Backend.download_file filename current_user w = (Ok pdf, w)
      /\ Main.download_file filename w = (Ok pdf, w)
      /\ send_file file_path w
         = (Raise (LibraryError (PyStr.lit "RuntimeError: File at path "
                                   ++ file_path ++ PyStr.lit " is not a file.")),
            w))
  /\ (let parent :=
        FileResponse (PyStr.lit "generated_pdfs/..") (PyStr.lit "..")
          (PyStr.lit "application/pdf") in
      Backend.download_file (PyStr.lit "..") current_user w = (Ok parent, w)
      /\ Main.download_file (PyStr.lit "..") w = (Ok parent, w)
      /\ send_file (PyStr.lit "generated_pdfs/..") w
         = (Raise (LibraryError
                     (PyStr.lit "RuntimeError: File at path generated_pdfs/.. is not a file.")),
            w)).
Proof.
  intros file_path pdf. subst pdf file_path.
  rewrite !backend_download_run, !main_download_run.
  unfold Backend.OUTPUT_DIR, send_file. rewrite join_output_dir.
  split; [|split; [|split]].
  - intros content Hd Hc. rewrite Hd, Hc.
    rewrite bool_decide_eq_true_2 by eauto. auto.
  - intros Hd Hn. rewrite Hd, Hn.
    rewrite bool_decide_eq_false_2 by (intros [? [=]]). auto.
  - intros Hd. rewrite Hd. auto.
  - change (Spec.download_path (PyStr.lit ".."))
      with (PyStr.lit "generated_pdfs/..").
    rewrite output_dir_dotdot. auto.
Qed.

Lemma download_by_kind_of_path_witness :
  let platform := Samples.posix in
  let w := mkWorld {[ PyStr.lit "generated_pdfs/FIR_1.pdf" := [Byte.x25] ]} [] 0 in
  let pdf name :=
    FileResponse (PyStr.lit "generated_pdfs/" ++ name) name
      (PyStr.lit "application/pdf") in
  (Backend.download_file (PyStr.lit "FIR_1.pdf") Samples.admin w
   = (Ok (pdf (PyStr.lit "FIR_1.pdf")), w)
   /\ send_file (PyStr.lit "generated_pdfs/FIR_1.pdf") w = (Ok [Byte.x25], w))
  /\ Main.download_file (PyStr.lit "FIR_2.pdf") w
     = (Ok (JSON [(PyStr.lit "error", PyStr.lit "File not found")]), w)
  /\ (Backend.download_file (PyStr.lit "..") Samples.admin w
      = (Ok (pdf (PyStr.lit "..")), w)
      /\ Main.download_file (PyStr.lit "..") w = (Ok (pdf (PyStr.lit "..")), w)
      /\ send_file (PyStr.lit "generated_pdfs/..") w
         = (Raise (LibraryError
                     (PyStr.lit "RuntimeError: File at path generated_pdfs/.. is not a file.")),
            w)).
Proof.
  intros platform w pdf. split; [|split].
  - pose proof (proj1 (download_by_kind_of_path (PyStr.lit "FIR_1.pdf")
                         Samples.admin w) [Byte.x25] eq_refl eq_refl)
      as (Hb & _ & Hs).
    split; [exact Hb | exact Hs].
  - exact (proj2 (proj1 (proj2 (download_by_kind_of_path (PyStr.lit "FIR_2.pdf")
                                  Samples.admin w)) eq_refl eq_refl)).
  - exact (proj1 (proj2 (proj2 (download_by_kind_of_path (PyStr.lit "..")
                                  Samples.admin w))) eq_refl).
Defined.

(** C9: in both variants the path that is tested and served is
    [os.path.join(OUTPUT_DIR, filename)] with the file name exactly as
    the caller gave it: [generated_pdfs/] followed by the name, parent
    segments included, and the name alone when it starts with [/]. *)
Theorem download_path_is_plain_join `{Platform} filename current_user w :
  let file_path :=
    if PyStr.startswith PosixPath.sep filename then filename
    else PyStr.lit "generated_pdfs/" ++ filename in
  let response :=
    if isdir file_path || bool_decide (is_Some (fs w !! file_path))
    then FileResponse file_path filename (PyStr.lit "application/pdf")
    else JSON [(PyStr.lit "error", PyStr.lit "File not found")] in
  PosixPath.join Backend.OUTPUT_DIR filename = file_path
  /\ PosixPath.join Main.OUTPUT_DIR filename = file_path
  /\ Backend.download_file filename current_user w = (Ok response, w)
  /\ Main.download_file filename w = (Ok response, w).
Proof.
  intros file_path response.
  split; [|split; [|split]].
  - apply join_output_dir.
  - apply join_output_dir.
  - apply backend_download_run.
  - apply main_download_run.
Qed.

(** Parent segments and absolute names go through. *)
Example download_traversal :
  let platform := Samples.posix in
  let w := mkWorld {[ PyStr.lit "generated_pdfs/../notes.txt" := [Byte.x53];
                      PyStr.lit "/etc/passwd" := [Byte.x72] ]} [] 0 in
  fst (Main.download_file (PyStr.lit "../notes.txt") w)
  = Ok (FileResponse (PyStr.lit "generated_pdfs/../notes.txt")
          (PyStr.lit "../notes.txt") (PyStr.lit "application/pdf"))
  /\ fst (Main.download_file (PyStr.lit "/etc/passwd") w)
  = Ok (FileResponse (PyStr.lit "/etc/passwd")
          (PyStr.lit "/etc/passwd") (PyStr.lit "application/pdf")).
Proof. split; vm_compute; reflexivity. Qed.

(** ** Page layout of the complaint *)

Section Layout.
Import PyStr ReportLab Spec.

Lemma layout_line_run h c y line :
  Backend.layout_line h (c, y) line =
  (mkCanvas (filename c) (pagesize c)
     (code c ++ (if (y <? 50)%float then [ShowPage] else [])
        ++ [DrawString 50 (if (y <? 50)%float then (h - 50)%float else y)
              (strip line)]),
   ((if (y <? 50)%float then (h - 50)%float else y) - 15)%float).
Proof.
  unfold Backend.layout_line, drawString, showPage, emit.
  destruct (y <? 50)%float; simpl; [|reflexivity].
  now rewrite <- app_assoc.
Qed.

Lemma drawn_strings_app ops1 ops2 :
  drawn_strings (ops1 ++ ops2) = (drawn_strings ops1 + drawn_strings ops2)%nat.
Proof. unfold drawn_strings. now rewrite List.filter_app, length_app. Qed.

(** The loop only appends to the canvas, one string per line. *)
Lemma layout_fold_code h lines : forall c y,
  exists body y',
    fold_left (Backend.layout_line h) lines (c, y)
    = (mkCanvas (filename c) (pagesize c) (code c ++ body), y')
    /\ drawn_strings body = length lines.
Proof.
  induction lines as [|line lines IH]; intros c y; cbn [fold_left length].
  - exists [], y. rewrite app_nil_r. now destruct c.
  - rewrite layout_line_run.
    set (turn := (if (y <? 50)%float then [ShowPage] else [])
                 ++ [DrawString 50 (if (y <? 50)%float then (h - 50)%float else y)
                       (strip line)]).
    destruct (IH (mkCanvas (filename c) (pagesize c) (code c ++ turn))
                ((if (y <? 50)%float then (h - 50)%float else y) - 15)%float)
      as (body & y' & -> & Hn).
    exists (turn ++ body), y'. cbn [filename pagesize code].
    rewrite <- app_assoc. split; [reflexivity|].
    rewrite drawn_strings_app, Hn. subst turn.
    destruct (y <? 50)%float; reflexivity.
Qed.

(** One step from any value of the orbit stays in the orbit and draws
    between the margins. *)
Lemma cursor_orbit_step y :
  In y cursor_orbit ->
  In (next_y y) cursor_orbit
  /\ (50 <=? draw_y y)%float = true
  /\ (draw_y y <=? height - 50)%float = true.
Proof.
  intros Hy. vm_compute in Hy.
  repeat (destruct Hy as [<- | Hy];
          [ split; [vm_compute; repeat first [left; reflexivity | right]
                   | split; vm_compute; reflexivity] | ]).
  contradiction.
Qed.

Lemma cursor_start_in_orbit : In cursor_start cursor_orbit.
Proof. left. reflexivity. Qed.

(** From a cursor of the orbit on, every string of the loop is drawn
    between the margins. *)
Lemma layout_fold_margins lines : forall c y,
  In y cursor_orbit ->
  exists body y',
    fold_left (Backend.layout_line height) lines (c, y)
    = (mkCanvas (filename c) (pagesize c) (code c ++ body), y')
    /\ drawn_strings body = length lines
    /\ forallb within_margins body = true.
Proof.
  induction lines as [|line lines IH]; intros c y Hy; cbn [fold_left length].
  - exists [], y. rewrite app_nil_r. now destruct c.
  - rewrite layout_line_run.
    destruct (cursor_orbit_step y Hy) as (Hnext & Hlo & Hhi).
    unfold next_y, draw_y in Hnext, Hlo, Hhi.
    set (turn := (if (y <? 50)%float then [ShowPage] else [])
                 ++ [DrawString 50
                       (if (y <? 50)%float then (height - 50)%float else y)
                       (strip line)]).
    destruct (IH (mkCanvas (filename c) (pagesize c) (code c ++ turn)) _ Hnext)
      as (body & y' & -> & Hn & Hm).
    exists (turn ++ body), y'. cbn [filename pagesize code].
    rewrite <- app_assoc. split; [reflexivity|].
    rewrite drawn_strings_app, forallb_app, Hn, Hm. subst turn.
    destruct (y <? 50)%float; cbn [app forallb within_margins];
      rewrite Hlo, Hhi; split; reflexivity.
Qed.

Lemma fir_header_run c fir_no victim_name fraud_amount :
  Backend.fir_header c height fir_no victim_name fraud_amount =
  (mkCanvas (filename c) (pagesize c)
     (code c ++
        [SetFont (lit "Helvetica-Bold") 16;
         DrawString 50 (height - 50) (lit "FIR No.: " ++ fir_no);
         SetFont (lit "Helvetica") 12;
         DrawString 50 (height - 50 - 30) (lit "Victim Name: " ++ victim_name);
         DrawString 50 (height - 50 - 30 - 20)
           (lit "Fraud Amount: " ++ fraud_amount);
         SetFont (lit "Helvetica-Bold") 14;
         DrawString 50 (height - 50 - 30 - 20 - 40) (lit "Complaint Details:");
         SetFont (lit "Helvetica") 11]),
   cursor_start).
Proof.
  unfold Backend.fir_header, setFont, drawString, emit. cbn [filename pagesize code].
  rewrite <- !app_assoc. reflexivity.
Qed.

(** The canvas that is saved: the title block, then the complaint. *)
Lemma backend_fir_canvas_run output_filename fir_no victim_name fraud_amount
    complaint_text :
  Backend.fir_canvas output_filename fir_no victim_name fraud_amount complaint_text
  = fst (Backend.layout_complaint height
           (Backend.fir_header (ReportLab.new output_filename A4) height
              fir_no victim_name fraud_amount)
           complaint_text).
Proof. reflexivity. Qed.

Lemma backend_fir_canvas_filename output_filename fir_no victim_name
    fraud_amount complaint_text :
  filename (Backend.fir_canvas output_filename fir_no victim_name fraud_amount
              complaint_text) = output_filename.
Proof.
  rewrite backend_fir_canvas_run, fir_header_run. unfold Backend.layout_complaint.
  edestruct layout_fold_code as (body & y' & -> & _). reflexivity.
Qed.

(** The complaint loop of the saved canvas, without the margins. *)
Lemma complaint_lines_margins_body output_filename fir_no victim_name
    fraud_amount complaint_text :
  exists body,
    code (Backend.fir_canvas output_filename fir_no victim_name fraud_amount
            complaint_text)
    = code (fst (Backend.fir_header (ReportLab.new output_filename A4) height
                   fir_no victim_name fraud_amount)) ++ body
    /\ drawn_strings body = length (split newline complaint_text).
Proof.
  rewrite backend_fir_canvas_run, fir_header_run. unfold Backend.layout_complaint.
  edestruct layout_fold_code as (body & y' & -> & Hn).
  exists body. auto.
Qed.

Lemma main_fir_canvas_filename `{External} output_filename fir_no fir_date
    section victim_name fraud_amount complaint_text :
  filename (Main.fir_canvas output_filename fir_no fir_date section victim_name
              fraud_amount complaint_text) = output_filename.
Proof. reflexivity. Qed.

End Layout.

(** C10: in the authenticated variant the canvas that is saved is the
    title block followed by the drawing calls of the complaint loop; the
    loop draws one string per line of the complaint, and each of them at
    a height [y] with [50 <= y <= height - 50], however long the
    complaint is. *)
Theorem complaint_lines_within_margins output_filename fir_no victim_name
    fraud_amount complaint_text :
  let header :=
    fst (Backend.fir_header (ReportLab.new output_filename ReportLab.A4)
           Spec.height fir_no victim_name fraud_amount) in
  exists body,
    ReportLab.code (Backend.fir_canvas output_filename fir_no victim_name
                      fraud_amount complaint_text)
    = ReportLab.code header ++ body
    /\ ReportLab.drawn_strings body
       = length (PyStr.split PyStr.newline complaint_text)
    /\ forallb Spec.within_margins body = true.
Proof.
  intros header. subst header.
  rewrite backend_fir_canvas_run, fir_header_run. unfold Backend.layout_complaint.
  edestruct layout_fold_margins as (body & y' & -> & Hn & Hm);
    [apply cursor_start_in_orbit|].
  exists body. auto.
Qed.

(** C6: when the cursor is below 50 at the top of the loop body, the
    turn for that line calls [showPage], draws the line at
    [height - 50] and leaves the cursor 15 below it; both calls are in
    the canvas that is saved, in this order, right after what was drawn
    before. *)
Theorem new_page_at_bottom_margin output_filename fir_no victim_name
    fraud_amount complaint_text pre line post c1 y1 :
  let st0 :=
    Backend.fir_header (ReportLab.new output_filename ReportLab.A4)
      Spec.height fir_no victim_name fraud_amount in
  PyStr.split PyStr.newline complaint_text = pre ++ line :: post ->
  fold_left (Backend.layout_line Spec.height) pre st0 = (c1, y1) ->
  (y1 <? 50)%float = true ->
  fold_left (Backend.layout_line Spec.height) (pre ++ [line]) st0
  = (ReportLab.drawString (ReportLab.showPage c1) 50 (Spec.height - 50)
       (PyStr.strip line),
     (Spec.height - 50 - 15)%float)
  /\ exists rest,
      ReportLab.code (Backend.fir_canvas output_filename fir_no victim_name
                        fraud_amount complaint_text)
      = ReportLab.code c1
          ++ [ReportLab.ShowPage;
              ReportLab.DrawString 50 (Spec.height - 50) (PyStr.strip line)]
          ++ rest.
Proof.
  intros st0 Hsplit Hpre Hy.
  assert (Hturn : Backend.layout_line Spec.height (c1, y1) line
                  = (ReportLab.drawString (ReportLab.showPage c1) 50
                       (Spec.height - 50) (PyStr.strip line),
                     (Spec.height - 50 - 15)%float)).
  { unfold Backend.layout_line. now rewrite Hy. }
  split.
  - now rewrite fold_left_app, Hpre.
  - rewrite backend_fir_canvas_run. unfold Backend.layout_complaint.
    fold st0. rewrite Hsplit.
    change (pre ++ line :: post) with (pre ++ [line] ++ post).
    rewrite fold_left_app, Hpre, fold_left_app. cbn [fold_left].
    rewrite Hturn.
    edestruct layout_fold_code as (rest & y' & -> & _).
    exists rest. unfold ReportLab.drawString, ReportLab.showPage, ReportLab.emit.
    cbn [ReportLab.code fst]. now rewrite <- !app_assoc.
Qed.

Lemma new_page_at_bottom_margin_witness :
  let complaint_text := repeat PyStr.newline 43 in
  let st0 :=
    Backend.fir_header (ReportLab.new (PyStr.lit "o.pdf") ReportLab.A4)
      Spec.height [] [] [] in
  let before := fold_left (Backend.layout_line Spec.height) (repeat [] 43) st0 in
  PyStr.split PyStr.newline complaint_text = repeat [] 43 ++ [[]]
  /\ (snd before <? 50)%float = true
  /\ snd (fold_left (Backend.layout_line Spec.height) (repeat [] 43 ++ [[]]) st0)
     = (Spec.height - 50 - 15)%float.
Proof.
  intros complaint_text st0 before.
  assert (Hsplit : PyStr.split PyStr.newline complaint_text = repeat [] 43 ++ [[]])
    by reflexivity.
  assert (Hy : (snd before <? 50)%float = true) by (vm_compute; reflexivity).
  split; [exact Hsplit|]. split; [exact Hy|].
  destruct (new_page_at_bottom_margin (PyStr.lit "o.pdf") [] [] []
              complaint_text (repeat [] 43) [] [] (fst before) (snd before)
              Hsplit (surjective_pairing before) Hy) as [Hturn _].
  fold st0 in Hturn. rewrite Hturn. reflexivity.
Defined.

(** Above the margin the line is drawn where the cursor is, on the same
    page. *)
Lemma same_page_above_margin h c y line :
  (y <? 50)%float = false ->
  Backend.layout_line h (c, y) line
  = (ReportLab.drawString c 50 y (PyStr.strip line), (y - 15)%float).
Proof. intros Hy. unfold Backend.layout_line. now rewrite Hy. Qed.

(** The authenticated variant draws the four strings of the title block
    and one string for each of the N+1 segments of a complaint with N
    newlines. *)
Lemma backend_fir_draws_every_line output_filename fir_no victim_name
    fraud_amount complaint_text :
  ReportLab.drawn_strings
    (ReportLab.code (Backend.fir_canvas output_filename fir_no victim_name
                       fraud_amount complaint_text))
  = (4 + S (PyStr.count PyStr.newline complaint_text))%nat.
Proof.
  destruct (complaint_lines_margins_body output_filename fir_no victim_name
              fraud_amount complaint_text) as (body & -> & Hn).
  rewrite drawn_strings_app, Hn, split_length, fir_header_run. reflexivity.
Qed.

(** C3, at the unauthenticated variant: its canvas is the same whatever
    the complaint is, and it draws seven strings in all. *)
Theorem main_fir_ignores_complaint `{External} output_filename fir_no fir_date
    section victim_name fraud_amount complaint_text :
  Main.fir_canvas output_filename fir_no fir_date section victim_name
    fraud_amount complaint_text
  = Main.fir_canvas output_filename fir_no fir_date section victim_name
      fraud_amount []
  /\ ReportLab.drawn_strings
       (ReportLab.code (Main.fir_canvas output_filename fir_no fir_date section
                          victim_name fraud_amount complaint_text))
     = 7%nat.
Proof. split; reflexivity. Qed.

(** A complaint of 31 lines: its canvas holds 22 calls in all, seven of
    them strings, none of these a line of the complaint. *)
Example main_fir_drops_31_lines :
  let ext := Samples.unparseable in
  let complaint_text := PyStr.lit "a" ++ concat (repeat (10 :: PyStr.lit "a") 30) in
  let c := Main.fir_canvas (PyStr.lit "o.pdf") (PyStr.lit "1") (PyStr.lit "2")
             (PyStr.lit "3") (PyStr.lit "4") (PyStr.lit "5") complaint_text in
  PyStr.count PyStr.newline complaint_text = 30%nat
  /\ length (PyStr.split PyStr.newline complaint_text) = 31%nat
  /\ length (ReportLab.code c) = 22%nat
  /\ List.map
       (fun o => match o with ReportLab.DrawString _ _ text => text | _ => [] end)
       (List.filter ReportLab.is_drawString (ReportLab.code c))
     = [PyStr.lit "FIR no.: 1 dated 2"; PyStr.lit "Under Section: 3";
        PyStr.lit "Victim" ++ [8217] ++ PyStr.lit "s Name: 4";
        PyStr.lit "Total Fraud Amount: 5 /- INR"; PyStr.lit "Notes:-";
        PyStr.lit "Flow Chart"; PyStr.lit "Flow chart diagram goes here"].
Proof. repeat split; vm_compute; reflexivity. Qed.

(** ** Generation, then download *)

Section RoundTrip.
Context `{External}.
Import PyStr Spec.

Lemma fir_name_no_sep uuid : Forall (fun x => x <> PosixPath.sep) (fir_name uuid).
Proof.
  assert (Hlit : forall s : str,
             forallb (fun x => negb (x =? PosixPath.sep)) s = true ->
             Forall (fun x => x <> PosixPath.sep) s).
  { intros s Hs. apply Forall_forall. intros x Hx.
    rewrite forallb_forall in Hs. apply list_elem_of_In in Hx.
    specialize (Hs x Hx).
    apply negb_true_iff, N.eqb_neq in Hs. exact Hs. }
  unfold fir_name.
  apply Forall_app_2; [now apply Hlit|].
  apply Forall_app_2; [apply to_str_no_sep | now apply Hlit].
Qed.

Lemma basename_fir_path uuid : PosixPath.basename (fir_path uuid) = fir_name uuid.
Proof.
  change (fir_path uuid)
    with (lit "generated_pdfs" ++ PosixPath.sep :: fir_name uuid).
  apply basename_app, fir_name_no_sep.
Qed.

Lemma basename_download_link uuid :
  PosixPath.basename (lit "/download/" ++ fir_name uuid) = fir_name uuid.
Proof.
  change (lit "/download/" ++ fir_name uuid)
    with (lit "/download" ++ PosixPath.sep :: fir_name uuid).
  apply basename_app, fir_name_no_sep.
Qed.

Lemma download_path_fir_name uuid : download_path (fir_name uuid) = fir_path uuid.
Proof. reflexivity. Qed.

Lemma backend_generate_run uuid fir_no victim_name fraud_amount complaint_text
    current_user w :
  Backend.generate_fir uuid fir_no victim_name fraud_amount complaint_text
    current_user w =
  (Ok (JSON [(lit "download_link", lit "/download/" ++ fir_name uuid)]),
   mkWorld
     (<[fir_path uuid :=
          render (ReportLab.code
                    (Backend.fir_canvas (fir_path uuid) fir_no victim_name
                       fraud_amount complaint_text))]> (fs w))
     (audit_logs w ++
        [logged w (User.username current_user)
           (lit "Generated FIR PDF " ++ fir_path uuid)])
     (utcnow w)).
Proof.
  unfold Backend.generate_fir, save.
  change (Backend.OUTPUT_DIR ++ lit "/FIR_" ++ Uuid.to_str uuid ++ lit ".pdf")
    with (fir_path uuid).
  rewrite basename_fir_path, backend_fir_canvas_filename. reflexivity.
Qed.

Lemma main_generate_run uuid fir_no fir_date section victim_name fraud_amount
    complaint_text w :
  Main.generate_fir uuid fir_no fir_date section victim_name fraud_amount
    complaint_text w =
  (Ok (JSON [(lit "download_link", lit "/download/" ++ fir_name uuid)]),
   mkWorld
     (<[fir_path uuid :=
          render (ReportLab.code
                    (Main.fir_canvas (fir_path uuid) fir_no fir_date section
                       victim_name fraud_amount complaint_text))]> (fs w))
     (audit_logs w) (utcnow w)).
Proof.
  unfold Main.generate_fir, save.
  change (Main.OUTPUT_DIR ++ lit "/FIR_" ++ Uuid.to_str uuid ++ lit ".pdf")
    with (fir_path uuid).
  rewrite basename_fir_path. reflexivity.
Qed.

End RoundTrip.

(** C8: in both variants a generation succeeds with a link
    [/download/<name>]; the download of [<name>], run in the world the
    generation left, answers with a PDF [FileResponse] for the path the
    generator wrote, and what it streams is the document the generator
    saved there. *)
Theorem generated_file_downloads_back `{External} `{Platform} uuid fir_no fir_date section
    victim_name fraud_amount complaint_text current_user w :
  (let run := Backend.generate_fir uuid fir_no victim_name fraud_amount
                complaint_text current_user w in
   let written :=
     render (ReportLab.code
               (Backend.fir_canvas (Spec.fir_path uuid) fir_no victim_name
                  fraud_amount complaint_text)) in
   exists link response,
     fst run = Ok (JSON [(PyStr.lit "download_link", link)])
     /\ fs (snd run) = <[Spec.fir_path uuid := written]> (fs w)
     /\ Backend.download_file (PosixPath.basename link) current_user (snd run)
        = (Ok response, snd run)
     /\ response = FileResponse (Spec.fir_path uuid) (PosixPath.basename link)
                     (PyStr.lit "application/pdf")
     /\ streamed response (snd run) = Some written)
  /\ (let run := Main.generate_fir uuid fir_no fir_date section victim_name
                   fraud_amount complaint_text w in
      let written :=
        render (ReportLab.code
                  (Main.fir_canvas (Spec.fir_path uuid) fir_no fir_date section
                     victim_name fraud_amount complaint_text)) in
      exists link response,
        fst run = Ok (JSON [(PyStr.lit "download_link", link)])
        /\ fs (snd run) = <[Spec.fir_path uuid := written]> (fs w)
        /\ Main.download_file (PosixPath.basename link) (snd run)
           = (Ok response, snd run)
        /\ response = FileResponse (Spec.fir_path uuid) (PosixPath.basename link)
                        (PyStr.lit "application/pdf")
        /\ streamed response (snd run) = Some written).
Proof.
  split; intros run written; subst run.
  - rewrite backend_generate_run. cbn [fst snd fs].
    eexists _, _. split; [reflexivity|]. split; [reflexivity|].
    rewrite basename_download_link, backend_download_run.
    rewrite download_path_fir_name. cbn [fs].
    rewrite lookup_insert_eq, bool_decide_eq_true_2, orb_true_r by eauto.
    split; [reflexivity|]. split; [reflexivity|].
    cbn [streamed fs]. apply lookup_insert_eq.
  - rewrite main_generate_run. cbn [fst snd fs].
    eexists _, _. split; [reflexivity|]. split; [reflexivity|].
    rewrite basename_download_link, main_download_run.
    rewrite download_path_fir_name. cbn [fs].
    rewrite lookup_insert_eq, bool_decide_eq_true_2, orb_true_r by eauto.
    split; [reflexivity|]. split; [reflexivity|].
    cbn [streamed fs]. apply lookup_insert_eq.
Qed.

(** ** The claims at sample requests *)

Lemma auth_failure_statuses_witness :
  let ext := Samples.one_page None Samples.verify in
  let w := Samples.empty_world in
  Backend.depends_current_active_user None w
  = (Raise (HTTPException 401 (PyStr.lit "Not authenticated")
              [(PyStr.lit "WWW-Authenticate", PyStr.lit "Bearer")]), w)
  /\ Backend.depends_current_active_user (Some (PyStr.lit "forged")) w
     = (Raise Backend.credentials_exception, w)
  /\ Backend.depends_current_active_user (Some (PyStr.lit "nosub")) w
     = (Raise Backend.credentials_exception, w)
  /\ Backend.depends_current_active_user (Some (PyStr.lit "ghost")) w
     = (Raise Backend.credentials_exception, w)
  /\ Backend.get_current_active_user Samples.disabled_user w
     = (Raise (HTTPException 400 (PyStr.lit "Inactive user") []), w)
  /\ Backend.get_current_active_user Samples.admin w = (Ok Samples.admin, w).
Proof.
  intros ext w.
  destruct (@auth_failure_statuses ext)
    as (Hmissing & Htoken & _ & Hdisabled & Hactive).
  split; [apply Hmissing|].
  split; [apply Htoken; left; reflexivity|].
  split; [apply Htoken; right; left; reflexivity|].
  split.
  { apply Htoken. right. right. exists (PyStr.lit "ghost").
    split; [reflexivity | vm_compute; reflexivity]. }
  split; [apply Hdisabled; reflexivity|].
  apply Hactive. discriminate.
Defined.

(** The request [GET /download/FIR_1.pdf] of [admin], for a file that is
    there: the file is served and [audit_logs] is as empty as before. *)
Example download_by_admin_leaves_no_row :
  let ext := Samples.one_page None Samples.verify in
  let platform := Samples.posix in
  let w := mkWorld {[ PyStr.lit "generated_pdfs/FIR_1.pdf" := [Byte.x25] ]} [] 0 in
  Backend.route_download (Some (PyStr.lit "good")) (PyStr.lit "FIR_1.pdf") w
  = (Ok (FileResponse (PyStr.lit "generated_pdfs/FIR_1.pdf")
           (PyStr.lit "FIR_1.pdf") (PyStr.lit "application/pdf")), w)
  /\ audit_logs w = [].
Proof. split; vm_compute; reflexivity. Qed.

(** The same user's upload and generation each leave one row. *)
Example upload_and_generate_by_admin_leave_a_row :
  let ext := Samples.one_page (Some (PyStr.lit "text")) Samples.verify in
  let w := Samples.empty_world in
  List.map AuditLog.username
    (audit_logs (snd (Backend.route_upload (Some (PyStr.lit "good")) 7 [] w)))
  = [PyStr.lit "admin"]
  /\ List.map AuditLog.username
       (audit_logs (snd (Backend.route_generate (Some (PyStr.lit "good")) 7
                           (PyStr.lit "1") (PyStr.lit "v") (PyStr.lit "5")
                           (PyStr.lit "c") w)))
     = [PyStr.lit "admin"].
Proof. split; vm_compute; reflexivity. Qed.

(** An upload whose only page is an image. *)
Example upload_image_only :
  let ext := Samples.one_page None (fun _ => None) in
  fst (Main.upload_pdf 7 [] Samples.empty_world)
  = Ok (JSON [(PyStr.lit "extracted_text", [])]).
Proof. vm_compute. reflexivity. Qed.

(** * Further properties *)

(** ** Login *)

Ltac run_login :=
  unfold BackendLogin.login, BackendLogin.authenticate_user,
    BackendLogin.verify_password, BackendLogin.create_access_token,
    Backend.get_user; run.

(** The only user of the table is stored under its own name and is not
    disabled. *)
Lemma fake_users_db_entry username user :
  Backend.fake_users_db !! username = Some user ->
  User.username user = username /\ User.disabled user = Some false.
Proof.
  unfold Backend.fake_users_db. intros Hu.
  apply lookup_singleton_Some in Hu as [<- <-]. split; reflexivity.
Qed.

(** X1: an unknown user name and a wrong password are refused alike,
    with status 400 and the detail "Incorrect username or password",
    and the refusal changes nothing. *)
Theorem login_rejects_alike `{Credentials} username password w :
  (Backend.fake_users_db !! username = None
   \/ exists user,
        Backend.fake_users_db !! username = Some user
        /\ pwd_verify password (User.hashed_password user) = Ok false) ->
  BackendLogin.login username password w
  = (Raise (HTTPException 400 (PyStr.lit "Incorrect username or password") []), w).
Proof.
  intros [Hnone | (user & Hsome & Hbad)]; run_login.
  - now rewrite Hnone.
  - rewrite Hsome. run. now rewrite Hbad.
Qed.

Lemma login_rejects_alike_witness :
  let creds := Samples2.plain_tokens in
  let refused :=
    Raise (HTTPException 400 (PyStr.lit "Incorrect username or password") []) in
  BackendLogin.login (PyStr.lit "nobody") (PyStr.lit "secret") Samples.empty_world
  = (refused, Samples.empty_world)
  /\ BackendLogin.login (PyStr.lit "admin") (PyStr.lit "guess") Samples.empty_world
     = (refused, Samples.empty_world).
Proof.
  intros creds refused. split.
  - apply (login_rejects_alike (PyStr.lit "nobody")). left.
    vm_compute. reflexivity.
  - apply (login_rejects_alike (PyStr.lit "admin")). right.
    exists Samples.admin. split; vm_compute; reflexivity.
Defined.

(** X2: a zero [expires_delta] counts as none, so the token expires
    after the default 15 minutes, and an [exp] claim the caller put into
    [data] is replaced by the computed expiry. *)
Theorem create_access_token_expiry `{Credentials} data w :
  BackendLogin.create_access_token data (Some 0%Z) w
  = BackendLogin.create_access_token data None w
  /\ (forall exp expires_delta,
         BackendLogin.create_access_token (<[PyStr.lit "exp" := exp]> data)
           expires_delta w
         = BackendLogin.create_access_token data expires_delta w)
  /\ fst (BackendLogin.create_access_token data None w)
     = Ok (jwt_encode
             (<[PyStr.lit "exp" := ClaimTime (utcnow w + 900000000)]> data)
             Backend.SECRET_KEY Backend.ALGORITHM).
Proof.
  split; [reflexivity|]. split; [|reflexivity].
  intros exp expires_delta. unfold BackendLogin.create_access_token.
  now rewrite insert_insert_eq.
Qed.

(** X3: when the JWT library reads back the tokens of this program,
    the token [create_access_token] makes for the name of a known user
    is accepted by [get_current_user] as that user at every time before
    the time of issue plus the lifetime of the token; making the token
    changes nothing. *)
Theorem issued_token_authenticates `{External} `{Credentials}
    username user expires_delta w :
  Spec2.jwt_reads_back ->
  Backend.fake_users_db !! username = Some user ->
  exists token,
    BackendLogin.create_access_token
      {[ PyStr.lit "sub" := ClaimStr username ]} expires_delta w
    = (Ok token, w)
    /\ forall w',
        (utcnow w' < utcnow w + Spec2.lifetime expires_delta)%Z ->
        Backend.get_current_user token w' = (Ok user, w').
Proof.
  intros Hjwt Huser.
  exists (jwt_encode
            (<[PyStr.lit "exp" :=
                 ClaimTime (utcnow w + Spec2.lifetime expires_delta)]>
               {[ PyStr.lit "sub" := ClaimStr username ]})
            Backend.SECRET_KEY Backend.ALGORITHM).
  split; [reflexivity|].
  intros w' Hclock. unfold Backend.get_current_user.
  rewrite (Hjwt (utcnow w') username _ Hclock).
  unfold Backend.get_user. now rewrite Huser.
Qed.

Lemma issued_token_authenticates_witness :
  let ext := Samples2.plain_external None in
  let creds := Samples2.plain_tokens in
  let w := Samples.empty_world in
  BackendLogin.create_access_token
    {[ PyStr.lit "sub" := ClaimStr (PyStr.lit "admin") ]}
    (Some (BackendLogin.minutes 30)) w
  = (Ok (PyStr.lit "admin"), w)
  /\ Backend.get_current_user (PyStr.lit "admin") (mkWorld ∅ [] 1799999999)
     = (Ok Samples.admin, mkWorld ∅ [] 1799999999).
Proof.
  intros ext creds w.
  assert (Hjwt : Spec2.jwt_reads_back) by (intros now sub t _; reflexivity).
  destruct (issued_token_authenticates (PyStr.lit "admin") Samples.admin
              (Some (BackendLogin.minutes 30)) w Hjwt eq_refl)
    as (token & Hmake & Hauth).
  assert (Htoken : token = PyStr.lit "admin").
  { assert (Hm : BackendLogin.create_access_token
                   {[ PyStr.lit "sub" := ClaimStr (PyStr.lit "admin") ]}
                   (Some (BackendLogin.minutes 30)) w
                 = (Ok (PyStr.lit "admin"), w)) by (vm_compute; reflexivity).
    rewrite Hm in Hmake. now injection Hmake as <-. }
  subst token. split; [exact Hmake|].
  apply Hauth. vm_compute. reflexivity.
Defined.

(** ** Protected routes *)

Section Routes.
Context `{External} `{Platform}.
Import PyStr.

(** The dependency, by its outcome. *)
Lemma depends_run authorization w :
  Backend.depends_current_active_user authorization w
  = (fst (Backend.depends_current_active_user authorization w), w).
Proof.
  rewrite <- (depends_world authorization w) at 3.
  apply surjective_pairing.
Qed.

Lemma route_upload_run authorization uuid file w :
  Backend.route_upload authorization uuid file w =
  match fst (Backend.depends_current_active_user authorization w) with
  | Ok current_user => Backend.upload_pdf uuid file current_user w
  | Raise e => (Raise e, w)
  end.
Proof.
  unfold Backend.route_upload. unfold mbind at 1. unfold M_bind.
  rewrite depends_run. now destruct (fst _).
Qed.

Lemma route_generate_run authorization uuid fir_no victim_name fraud_amount
    complaint_text w :
  Backend.route_generate authorization uuid fir_no victim_name fraud_amount
    complaint_text w =
  match fst (Backend.depends_current_active_user authorization w) with
  | Ok current_user =>
      if Spec2.filled [fir_no; victim_name; fraud_amount; complaint_text]
      then Backend.generate_fir uuid fir_no victim_name fraud_amount
             complaint_text current_user w
      else (Raise Backend.validation_error, w)
  | Raise e => (Raise e, w)
  end.
Proof.
  unfold Backend.route_generate. unfold mbind at 1. unfold M_bind.
  rewrite depends_run. destruct (fst _); [|reflexivity].
  unfold Backend.required, Spec2.filled.
  set (ok := forallb _ _). unfold mbind at 1. unfold M_bind.
  now destruct ok.
Qed.

Lemma route_download_run authorization filename w :
  Backend.route_download authorization filename w =
  match fst (Backend.depends_current_active_user authorization w) with
  | Ok current_user => Backend.download_file filename current_user w
  | Raise e => (Raise e, w)
  end.
Proof.
  unfold Backend.route_download. unfold mbind at 1. unfold M_bind.
  rewrite depends_run. now destruct (fst _).
Qed.

(** What a successful dependency knows about the request. *)
Lemma depends_ok authorization w current_user :
  fst (Backend.depends_current_active_user authorization w) = Ok current_user ->
  exists token,
    authorization = Some token
    /\ jwt_decode (utcnow w) token Backend.SECRET_KEY [Backend.ALGORITHM]
       = Some (Some (User.username current_user))
    /\ Backend.fake_users_db !! User.username current_user = Some current_user.
Proof.
  unfold Backend.depends_current_active_user, Backend.oauth2_scheme.
  destruct authorization as [token|]; run; [|discriminate].
  unfold Backend.get_current_user, Backend.get_user.
  destruct (jwt_decode _ _ _ _) as [[sub|]|] eqn:Hd; try discriminate.
  destruct (Backend.fake_users_db !! sub) as [user|] eqn:Hu; try discriminate.
  rewrite get_current_active_user_run. case_decide; [discriminate|].
  simpl. intros [= <-]. exists token.
  destruct (fake_users_db_entry _ _ Hu) as [Hname _].
  rewrite Hname. auto.
Qed.

End Routes.

(** X4: a request the dependency refuses gets the dependency's error
    from each protected route, and nothing has happened: no file was
    written, no row was added. *)
Theorem rejected_request_has_no_effect `{External} `{Platform} authorization
    uuid file
    fir_no victim_name fraud_amount complaint_text filename w e :
  fst (Backend.depends_current_active_user authorization w) = Raise e ->
  Backend.route_upload authorization uuid file w = (Raise e, w)
  /\ Backend.route_generate authorization uuid fir_no victim_name fraud_amount
       complaint_text w = (Raise e, w)
  /\ Backend.route_download authorization filename w = (Raise e, w).
Proof.
  intros He.
  rewrite route_upload_run, route_generate_run, route_download_run, He. auto.
Qed.

Lemma rejected_request_has_no_effect_witness :
  let ext := Samples.one_page (Some (PyStr.lit "text")) Samples.verify in
  let platform := Samples.posix in
  let w := mkWorld {[ PyStr.lit "generated_pdfs/FIR_1.pdf" := [Byte.x25] ]} [] 0 in
  Backend.route_upload (Some (PyStr.lit "forged")) 7 [Byte.x25] w
  = (Raise Backend.credentials_exception, w)
  /\ Backend.route_generate (Some (PyStr.lit "forged")) 7 [] [] [] [] w
     = (Raise Backend.credentials_exception, w)
  /\ Backend.route_download (Some (PyStr.lit "forged")) (PyStr.lit "FIR_1.pdf") w
     = (Raise Backend.credentials_exception, w).
Proof.
  intros ext platform w.
  apply (rejected_request_has_no_effect (Some (PyStr.lit "forged"))).
  reflexivity.
Defined.

(** X5: the audit table only grows, and by at most one row per request:
    after each of the four routes the rows that were there are still
    there, unchanged and in front; the login adds none. *)
Theorem audit_log_append_only `{External} `{Platform} `{Credentials}
    authorization uuid file fir_no victim_name fraud_amount complaint_text filename username password w :
  (exists rows,
      audit_logs (snd (Backend.route_upload authorization uuid file w))
      = audit_logs w ++ rows /\ (length rows <= 1)%nat)
  /\ (exists rows,
         audit_logs (snd (Backend.route_generate authorization uuid fir_no
                            victim_name fraud_amount complaint_text w))
         = audit_logs w ++ rows /\ (length rows <= 1)%nat)
  /\ audit_logs (snd (Backend.route_download authorization filename w))
     = audit_logs w
  /\ audit_logs (snd (BackendLogin.login username password w)) = audit_logs w.
Proof.
  rewrite route_upload_run, route_generate_run, route_download_run.
  split; [|split; [|split]].
  - destruct (fst _) as [current_user|e].
    + rewrite backend_upload_run. cbn zeta.
      destruct (Spec.extraction file); cbn [snd audit_logs].
      * eexists [_]. split; [reflexivity | simpl; lia].
      * exists []. rewrite app_nil_r. split; [reflexivity | simpl; lia].
    + exists []. rewrite app_nil_r. split; [reflexivity | simpl; lia].
  - destruct (fst _) as [current_user|e].
    + destruct (Spec2.filled _).
      * rewrite backend_generate_run. cbn [snd audit_logs].
        eexists [_]. split; [reflexivity | simpl; lia].
      * exists []. rewrite app_nil_r. split; [reflexivity | simpl; lia].
    + exists []. rewrite app_nil_r. split; [reflexivity | simpl; lia].
  - destruct (fst _) as [current_user|e]; [|reflexivity].
    now rewrite backend_download_run.
  - run_login. destruct (Backend.fake_users_db !! username) as [user|];
      [|reflexivity].
    run. destruct (pwd_verify _ _) as [[|]|]; reflexivity.
Qed.

(** X6: the row a successful generation or upload leaves carries the
    subject of the token that was presented, and the time of the
    request. *)
Theorem audit_row_names_token_subject `{External} authorization uuid file
    fir_no victim_name fraud_amount complaint_text w :
  (forall response,
      fst (Backend.route_generate authorization uuid fir_no victim_name
             fraud_amount complaint_text w) = Ok response ->
      exists token sub row,
        authorization = Some token
        /\ jwt_decode (utcnow w) token Backend.SECRET_KEY [Backend.ALGORITHM]
           = Some (Some sub)
        /\ audit_logs (snd (Backend.route_generate authorization uuid fir_no
                              victim_name fraud_amount complaint_text w))
           = audit_logs w ++ [row]
        /\ AuditLog.username row = sub
        /\ AuditLog.timestamp row = utcnow w)
  /\ (forall response,
         fst (Backend.route_upload authorization uuid file w) = Ok response ->
         exists token sub row,
           authorization = Some token
           /\ jwt_decode (utcnow w) token Backend.SECRET_KEY [Backend.ALGORITHM]
              = Some (Some sub)
           /\ audit_logs (snd (Backend.route_upload authorization uuid file w))
              = audit_logs w ++ [row]
           /\ AuditLog.username row = sub
           /\ AuditLog.timestamp row = utcnow w).
Proof.
  rewrite route_generate_run, route_upload_run.
  destruct (fst (Backend.depends_current_active_user authorization w))
    as [current_user|e] eqn:Hdep; [|split; intros ? [=]].
  destruct (depends_ok _ _ _ Hdep) as (token & -> & Hsub & _).
  split; intros response.
  - destruct (Spec2.filled _); [|discriminate].
    rewrite backend_generate_run. cbn [fst snd audit_logs]. intros _.
    eexists token, (User.username current_user), _.
    repeat (split; [reflexivity || exact Hsub|]). reflexivity.
  - rewrite backend_upload_run. cbn zeta.
    destruct (Spec.extraction file); cbn [fst snd audit_logs]; [|discriminate].
    intros _. eexists token, (User.username current_user), _.
    repeat (split; [reflexivity || exact Hsub|]). reflexivity.
Qed.

Lemma audit_row_names_token_subject_witness :
  let ext := Samples.one_page (Some (PyStr.lit "text")) Samples.verify in
  let w := Samples.empty_world in
  exists row,
    audit_logs (snd (Backend.route_upload (Some (PyStr.lit "good")) 7 [] w))
    = [row]
    /\ AuditLog.username row = PyStr.lit "admin"
    /\ AuditLog.timestamp row = 0%Z.
Proof.
  intros ext w.
  assert (Hok : fst (Backend.route_upload (Some (PyStr.lit "good")) 7 [] w)
                = Ok (JSON [(PyStr.lit "extracted_text", PyStr.lit "text")]))
    by (vm_compute; reflexivity).
  destruct (proj2 (audit_row_names_token_subject (Some (PyStr.lit "good")) 7 []
                     [] [] [] [] w) _ Hok)
    as (token & sub & row & Htoken & Hsub & Hrows & Hname & Htime).
  injection Htoken as <-.
  assert (Hadmin : sub = PyStr.lit "admin").
  { vm_compute in Hsub. now injection Hsub as <-. }
  rewrite Hadmin in Hname.
  exists row. split; [exact Hrows|]. split; [exact Hname | exact Htime].
Defined.

(** ** Files *)

Section Files.
Context `{External}.
Import PyStr Spec.

Lemma temp_is_no_fir_path uuid uuid' : temp_filename uuid <> fir_path uuid'.
Proof. discriminate. Qed.

(** Different digits are written differently. *)
Lemma hexdigit_inj a b :
  a < 16 -> b < 16 -> Uuid.hexdigit a = Uuid.hexdigit b -> a = b.
Proof.
  unfold Uuid.hexdigit. intros Ha Hb.
  destruct (N.ltb_spec a 10), (N.ltb_spec b 10); lia.
Qed.

(** The digits at the positions below [n] fix the number modulo [16^n]. *)
Lemma digits_fix_mod u v n :
  (forall i, (i < n)%nat ->
     (u / 16 ^ N.of_nat i) mod 16 = (v / 16 ^ N.of_nat i) mod 16) ->
  u mod 16 ^ N.of_nat n = v mod 16 ^ N.of_nat n.
Proof.
  induction n as [|n IH]; intros Hd.
  - now rewrite !N.mod_1_r.
  - assert (Hpow : 16 ^ N.of_nat (S n) = 16 ^ N.of_nat n * 16)
      by (rewrite Nat2N.inj_succ, N.pow_succ_r'; lia).
    rewrite Hpow, !N.Div0.mod_mul_r.
    rewrite (Hd n) by lia. rewrite IH; [reflexivity|].
    intros i Hi. apply Hd. lia.
Qed.

Lemma hex32_inj u v :
  u < 2 ^ 128 -> v < 2 ^ 128 -> Uuid.hex32 u = Uuid.hex32 v -> u = v.
Proof.
  intros Hu Hv Hh.
  assert (Hd : forall i, (i < 32)%nat ->
            (u / 16 ^ N.of_nat i) mod 16 = (v / 16 ^ N.of_nat i) mod 16).
  { intros i Hi. unfold Uuid.hex32 in Hh.
    assert (Hin : In i (rev (seq 0 32))) by (rewrite <- in_rev, in_seq; lia).
    assert (Hall : forall l : list nat, 
              List.map (fun i => Uuid.hexdigit ((u / 16 ^ N.of_nat i) mod 16)) l
              = List.map (fun i => Uuid.hexdigit ((v / 16 ^ N.of_nat i) mod 16)) l ->
              forall i, In i l ->
              Uuid.hexdigit ((u / 16 ^ N.of_nat i) mod 16)
              = Uuid.hexdigit ((v / 16 ^ N.of_nat i) mod 16)).
    { induction l as [|x l IHl]; intros Hl j Hj; [contradiction|].
      injection Hl as Hx Hl. destruct Hj as [<- | Hj]; auto. }
    apply hexdigit_inj; try (apply N.mod_lt; discriminate).
    now apply (Hall _ Hh). }
  apply (digits_fix_mod u v 32) in Hd.
  change (16 ^ N.of_nat 32) with (2 ^ 128) in Hd.
  now rewrite !N.mod_small in Hd.
Qed.

Lemma hex32_length u : length (Uuid.hex32 u) = 32%nat.
Proof. unfold Uuid.hex32. now rewrite length_map, length_rev, length_seq. Qed.

(** [str(u)] determines a 128-bit [u]. *)
Lemma uuid_to_str_inj u v :
  u < 2 ^ 128 -> v < 2 ^ 128 -> Uuid.to_str u = Uuid.to_str v -> u = v.
Proof.
  intros Hu Hv Hs. apply hex32_inj; trivial.
  pose proof (hex32_length u) as Lu. pose proof (hex32_length v) as Lv.
  unfold Uuid.to_str in Hs.
  remember (Uuid.hex32 u) as hu. remember (Uuid.hex32 v) as hv.
  do 32 (destruct hu as [|? hu]; [discriminate Lu|]).
  do 32 (destruct hv as [|? hv]; [discriminate Lv|]).
  destruct hu; [|discriminate Lu]. destruct hv; [|discriminate Lv].
  vm_compute in Hs. congruence.
Qed.

Lemma fir_path_inj u v :
  u < 2 ^ 128 -> v < 2 ^ 128 -> fir_path u = fir_path v -> u = v.
Proof.
  intros Hu Hv Hp. apply uuid_to_str_inj; trivial.
  unfold fir_path, fir_name in Hp.
  apply app_inv_head in Hp. apply app_inv_head in Hp.
  now apply app_inv_tail in Hp.
Qed.

End Files.

(** X7: whatever the upload does, in both variants every file of the
    output directory is as it was. *)
Theorem upload_keeps_output_directory `{External} uuid file current_user w name :
  Forall (fun c => c <> PosixPath.sep) name ->
  fs (snd (Backend.upload_pdf uuid file current_user w))
    !! (PyStr.lit "generated_pdfs/" ++ name)
  = fs w !! (PyStr.lit "generated_pdfs/" ++ name)
  /\ fs (snd (Main.upload_pdf uuid file w))
       !! (PyStr.lit "generated_pdfs/" ++ name)
     = fs w !! (PyStr.lit "generated_pdfs/" ++ name).
Proof.
  intros _.
  assert (Hp : PyStr.lit "generated_pdfs/" ++ name <> Spec.temp_filename uuid)
    by discriminate.
  rewrite backend_upload_run, main_upload_run. cbn zeta.
  destruct (Spec.extraction file); cbn [snd fs];
    rewrite ?lookup_delete_ne, ?lookup_insert_ne by congruence; auto.
Qed.

Lemma upload_keeps_output_directory_witness :
  let ext := Samples.unparseable in
  let w := mkWorld {[ PyStr.lit "generated_pdfs/FIR_1.pdf" := [Byte.x25] ]} [] 0 in
  fs (snd (Backend.upload_pdf 7 [] Samples.admin w))
    !! PyStr.lit "generated_pdfs/FIR_1.pdf" = Some [Byte.x25]
  /\ fs (snd (Main.upload_pdf 7 [] w))
       !! PyStr.lit "generated_pdfs/FIR_1.pdf" = Some [Byte.x25].
Proof.
  intros ext w.
  apply (upload_keeps_output_directory 7 [] Samples.admin w
           (PyStr.lit "FIR_1.pdf")).
  apply Forall_forall. intros c Hc. apply list_elem_of_In in Hc.
  vm_compute in Hc. intuition (subst; discriminate).
Defined.

(** X8: two generations with different 128-bit identifiers write two
    different files: after the second, the first document is still
    served with the bytes of the first, and the second with its own. *)
Theorem distinct_generations_coexist `{External} `{Platform} u v fir_no
    victim_name
    fraud_amount complaint_text fir_no' victim_name' fraud_amount'
    complaint_text' current_user w :
  u < 2 ^ 128 -> v < 2 ^ 128 -> u <> v ->
  let w1 := snd (Backend.generate_fir u fir_no victim_name fraud_amount
                   complaint_text current_user w) in
  let w2 := snd (Backend.generate_fir v fir_no' victim_name' fraud_amount'
                   complaint_text' current_user w1) in
  let first := FileResponse (Spec.fir_path u) (Spec.fir_name u)
                 (PyStr.lit "application/pdf") in
  let second := FileResponse (Spec.fir_path v) (Spec.fir_name v)
                  (PyStr.lit "application/pdf") in
  Backend.download_file (Spec.fir_name u) current_user w2 = (Ok first, w2)
  /\ streamed first w2
     = Some (render (ReportLab.code
                       (Backend.fir_canvas (Spec.fir_path u) fir_no victim_name
                          fraud_amount complaint_text)))
  /\ Backend.download_file (Spec.fir_name v) current_user w2 = (Ok second, w2)
  /\ streamed second w2
     = Some (render (ReportLab.code
                       (Backend.fir_canvas (Spec.fir_path v) fir_no' victim_name'
                          fraud_amount' complaint_text'))).
Proof.
  intros Hu Hv Hne w1 w2 first second. subst w1 w2 first second.
  assert (Hpath : Spec.fir_path v <> Spec.fir_path u)
    by (intros Hp; apply Hne; symmetry; now apply fir_path_inj).
  rewrite !backend_generate_run. cbn [snd].
  rewrite !backend_download_run, !download_path_fir_name. cbn [fs streamed].
  rewrite lookup_insert_eq, lookup_insert_ne, lookup_insert_eq by exact Hpath.
  rewrite !bool_decide_eq_true_2, !orb_true_r by eauto. auto.
Qed.

Lemma distinct_generations_coexist_witness :
  let ext := Samples2.plain_external None in
  let platform := Samples.posix in
  let w1 := snd (Backend.generate_fir 1 (PyStr.lit "1") [] [] [] Samples.admin
                   Samples.empty_world) in
  let w2 := snd (Backend.generate_fir 2 (PyStr.lit "2") [] [] [10] Samples.admin
                   w1) in
  streamed (FileResponse (Spec.fir_path 1) (Spec.fir_name 1)
              (PyStr.lit "application/pdf")) w2
  = Some (repeat Byte.x2e 9)
  /\ streamed (FileResponse (Spec.fir_path 2) (Spec.fir_name 2)
                 (PyStr.lit "application/pdf")) w2
     = Some (repeat Byte.x2e 10).
Proof.
  intros ext platform w1 w2.
  destruct (distinct_generations_coexist 1 2 (PyStr.lit "1") [] [] []
              (PyStr.lit "2") [] [] [10] Samples.admin Samples.empty_world)
    as (_ & H1 & _ & H2); [reflexivity | reflexivity | discriminate |].
  split.
  - etransitivity; [exact H1|]. vm_compute. reflexivity.
  - etransitivity; [exact H2|]. vm_compute. reflexivity.
Defined.

(** X9: an upload, however it ends, leaves a generated document where
    it is: the download that follows serves the bytes the generator
    wrote. *)
Theorem upload_keeps_generated_documents `{External} `{Platform} u fir_no
    victim_name
    fraud_amount complaint_text uuid file current_user w :
  let w1 := snd (Backend.generate_fir u fir_no victim_name fraud_amount
                   complaint_text current_user w) in
  let w2 := snd (Backend.upload_pdf uuid file current_user w1) in
  let pdf := FileResponse (Spec.fir_path u) (Spec.fir_name u)
               (PyStr.lit "application/pdf") in
  Backend.download_file (Spec.fir_name u) current_user w2 = (Ok pdf, w2)
  /\ streamed pdf w2
     = Some (render (ReportLab.code
                       (Backend.fir_canvas (Spec.fir_path u) fir_no victim_name
                          fraud_amount complaint_text))).
Proof.
  intros w1 w2 pdf. subst w2 pdf.
  assert (Hkept : fs (snd (Backend.upload_pdf uuid file current_user w1))
                    !! Spec.fir_path u
                  = Some (render (ReportLab.code
                       (Backend.fir_canvas (Spec.fir_path u) fir_no victim_name
                          fraud_amount complaint_text)))).
  { rewrite backend_upload_run. cbn zeta.
    assert (Hw1 : fs w1 !! Spec.fir_path u
                  = Some (render (ReportLab.code
                       (Backend.fir_canvas (Spec.fir_path u) fir_no victim_name
                          fraud_amount complaint_text)))).
    { subst w1. rewrite backend_generate_run. cbn [snd fs].
      apply lookup_insert_eq. }
    destruct (Spec.extraction file); cbn [snd fs];
      rewrite lookup_delete_ne by (apply temp_is_no_fir_path); exact Hw1. }
  rewrite backend_download_run, download_path_fir_name. cbn [streamed].
  rewrite Hkept, bool_decide_eq_true_2, orb_true_r by eauto. auto.
Qed.

(** ** Extracted text *)

Section Text.
Import PyStr Spec2.

Lemma lstrip_head s c s' : lstrip s = c :: s' -> isspace c = false.
Proof.
  induction s as [|x s IH]; simpl; [discriminate|].
  destruct (isspace x) eqn:Hx; [exact IH|].
  now intros [= <- _].
Qed.

Lemma lstrip_suffix s : exists pre, s = pre ++ lstrip s.
Proof.
  induction s as [|x s [pre IH]]; simpl; [now exists []|].
  destruct (isspace x); [|now exists []].
  exists (x :: pre). simpl. now rewrite <- IH.
Qed.

Lemma rstrip_prefix t : exists suf, t = rstrip t ++ suf.
Proof.
  destruct (lstrip_suffix (rev t)) as [pre Hpre].
  exists (rev pre). unfold rstrip.
  rewrite <- rev_app_distr, <- Hpre. now rewrite rev_involutive.
Qed.

Lemma rstrip_last t c s' : rstrip t = s' ++ [c] -> isspace c = false.
Proof.
  unfold rstrip. intros Hr.
  apply (f_equal (@rev N)) in Hr.
  rewrite rev_involutive, rev_app_distr in Hr. simpl in Hr.
  now apply lstrip_head in Hr.
Qed.

Lemma strip_trimmed s : trimmed (strip s).
Proof.
  unfold strip. split.
  - intros c s' Hs.
    destruct (rstrip_prefix (lstrip s)) as [suf Hsuf].
    rewrite Hs in Hsuf. simpl in Hsuf. now apply lstrip_head in Hsuf.
  - intros c s' Hs. now apply rstrip_last in Hs.
Qed.

End Text.

(** X10: the text an upload returns, in either variant, neither starts
    nor ends with a white-space character. *)
Theorem extracted_text_is_trimmed `{External} uuid file current_user w response :
  (fst (Backend.upload_pdf uuid file current_user w) = Ok response
   \/ fst (Main.upload_pdf uuid file w) = Ok response) ->
  exists text,
    response = JSON [(PyStr.lit "extracted_text", text)] /\ Spec2.trimmed text.
Proof.
  rewrite backend_upload_run, main_upload_run. cbn zeta.
  destruct (Spec.extraction file) as [raw|e]; cbn [fst].
  - intros [[= <-] | [= <-]]; eexists; split; try reflexivity;
      apply strip_trimmed.
  - intros [? | ?]; discriminate.
Qed.

Lemma extracted_text_is_trimmed_witness :
  let ext := Samples.one_page (Some (PyStr.lit "  a b ")) (fun _ => None) in
  exists text,
    fst (Main.upload_pdf 7 [] Samples.empty_world)
    = Ok (JSON [(PyStr.lit "extracted_text", text)])
    /\ Spec2.trimmed text.
Proof.
  intros ext.
  assert (Hok : fst (Main.upload_pdf 7 [] Samples.empty_world)
                = Ok (JSON [(PyStr.lit "extracted_text", PyStr.lit "a b")]))
    by (vm_compute; reflexivity).
  destruct (extracted_text_is_trimmed 7 [] Samples.admin Samples.empty_world _
              (or_intror Hok)) as (text & Hr & Ht).
  exists text. split; [|exact Ht]. rewrite Hok. now rewrite Hr.
Defined.

(** X11: when [extract_text()] raises on some page, the upload raises
    that exception in both variants and returns nothing of the pages
    before it; the authenticated variant then writes no audit row. *)
Theorem upload_stops_at_failing_page `{External} uuid file current_user w
    texts e rest :
  pdfplumber_parse file = inr (List.map inr texts ++ inl e :: rest) ->
  fst (Backend.upload_pdf uuid file current_user w) = Raise e
  /\ fst (Main.upload_pdf uuid file w) = Raise e
  /\ audit_logs (snd (Backend.upload_pdf uuid file current_user w))
     = audit_logs w.
Proof.
  intros Hp.
  assert (He : Spec.extraction file = Raise e).
  { unfold Spec.extraction. rewrite Hp. clear Hp. generalize (@nil N).
    induction texts as [|[[|c s]|] texts IH]; intros acc;
      cbn [List.map app PdfPlumber.extract_loop]; auto. }
  rewrite backend_upload_run, main_upload_run, He. auto.
Qed.

Lemma upload_stops_at_failing_page_witness :
  let ext := Samples2.second_page_fails in
  let e := LibraryError (PyStr.lit "PDFSyntaxError") in
  fst (Backend.upload_pdf 7 [] Samples.admin Samples.empty_world) = Raise e
  /\ fst (Main.upload_pdf 7 [] Samples.empty_world) = Raise e
  /\ audit_logs (snd (Backend.upload_pdf 7 [] Samples.admin Samples.empty_world))
     = [].
Proof.
  intros ext e.
  exact (upload_stops_at_failing_page 7 [] Samples.admin Samples.empty_world
           [Some (PyStr.lit "one")] e [inr (Some (PyStr.lit "three"))] eq_refl).
Defined.

(** ** Content and pages of the generated document *)

Section Document.
Import PyStr ReportLab Spec Spec2.

Lemma drawn_texts_app ops1 ops2 :
  drawn_texts (ops1 ++ ops2) = drawn_texts ops1 ++ drawn_texts ops2.
Proof. apply omap_app. Qed.

Lemma new_pages_app ops1 ops2 :
  new_pages (ops1 ++ ops2) = (new_pages ops1 + new_pages ops2)%nat.
Proof. unfold new_pages. now rewrite List.filter_app, length_app. Qed.

(** The loop draws the stripped lines, in order. *)
Lemma layout_fold_texts h lines : forall c y,
  drawn_texts (code (fst (fold_left (Backend.layout_line h) lines (c, y))))
  = drawn_texts (code c) ++ List.map strip lines.
Proof.
  induction lines as [|line lines IH]; intros c y; cbn [fold_left List.map].
  - now rewrite app_nil_r.
  - rewrite layout_line_run, IH. cbn [code].
    rewrite !drawn_texts_app, <- app_assoc. f_equal.
    destruct (y <? 50)%float; reflexivity.
Qed.

(** Each position of the orbit: whether it is below the margin, and the
    position that follows. *)
Lemma cursor_orbit_nth i :
  (i < 94)%nat ->
  (nth i cursor_orbit 0%float <? 50)%float = orbit_low i
  /\ next_y (nth i cursor_orbit 0%float) = nth (orbit_succ i) cursor_orbit 0%float.
Proof.
  intros Hi.
  do 94 (destruct i as [|i]; [vm_compute; split; reflexivity|]).
  lia.
Qed.

Lemma orbit_succ_lt i : (i < 94)%nat -> (orbit_succ i < 94)%nat.
Proof.
  unfold orbit_succ. intros Hi. destruct (Nat.eqb_spec i 93); lia.
Qed.

Lemma layout_fold_pages lines : forall i c,
  (i < 94)%nat ->
  new_pages (code (fst (fold_left (Backend.layout_line height) lines
                          (c, nth i cursor_orbit 0%float))))
  = (new_pages (code c) + Pages.pages_from i (length lines))%nat.
Proof.
  induction lines as [|line lines IH]; intros i c Hi;
    cbn [fold_left length Pages.pages_from].
  - cbn [fst]. lia.
  - rewrite layout_line_run.
    destruct (cursor_orbit_nth i Hi) as [Hlow Hnext].
    unfold next_y, draw_y in Hnext. rewrite Hnext, Hlow.
    rewrite (IH _ _ (orbit_succ_lt i Hi)). cbn [code].
    rewrite !new_pages_app. destruct (orbit_low i); cbn; lia.
Qed.

End Document.

Section PageCount.
Import PyStr ReportLab Spec Spec2.

Lemma pages_from_closed n : forall i,
  (i < 94)%nat ->
  Pages.pages_from i n
  = (if (i <? 44)%nat then (n + i + 6) / 50 else (n + i - 44) / 50)%nat.
Proof.
  induction n as [|n IH]; intros i Hi; cbn [Pages.pages_from].
  - destruct (Nat.ltb_spec i 44%nat); symmetry; apply Nat.div_small; lia.
  - rewrite IH by now apply orbit_succ_lt.
    destruct (Nat.eq_dec i 43%nat) as [-> | H43];
      [|destruct (Nat.eq_dec i 93%nat) as [-> | H93]].
    + change (orbit_low 43%nat) with true. change (orbit_succ 43%nat) with 44%nat.
      change (44 <? 44)%nat with false. change (43 <? 44)%nat with true.
      cbv iota.
      replace (n + 44 - 44)%nat with n by lia.
      replace (S n + 43 + 6)%nat with (n + 1 * 50)%nat by lia.
      rewrite Nat.div_add by discriminate. lia.
    + change (orbit_low 93%nat) with true. change (orbit_succ 93%nat) with 44%nat.
      change (44 <? 44)%nat with false. change (93 <? 44)%nat with false.
      cbv iota.
      replace (n + 44 - 44)%nat with n by lia.
      replace (S n + 93 - 44)%nat with (n + 1 * 50)%nat by lia.
      rewrite Nat.div_add by discriminate. lia.
    + unfold orbit_low, orbit_succ.
      destruct (Nat.eqb_spec i 43%nat); [lia|].
      destruct (Nat.eqb_spec i 93%nat); [lia|]. cbn [orb].
      destruct (Nat.ltb_spec i 44%nat), (Nat.ltb_spec (S i) 44%nat); try lia;
        cbn [Nat.add]; f_equal; lia.
Qed.

End PageCount.

(** X12: the strings of the saved document are the four of the title
    block followed by the lines of the complaint, each stripped of the
    white space at its ends, in the order of the text. *)
Theorem complaint_strings_in_order output_filename fir_no victim_name
    fraud_amount complaint_text :
  Spec2.drawn_texts
    (ReportLab.code (Backend.fir_canvas output_filename fir_no victim_name
                       fraud_amount complaint_text))
  = [PyStr.lit "FIR No.: " ++ fir_no;
     PyStr.lit "Victim Name: " ++ victim_name;
     PyStr.lit "Fraud Amount: " ++ fraud_amount;
     PyStr.lit "Complaint Details:"]
    ++ List.map PyStr.strip (PyStr.split PyStr.newline complaint_text).
Proof.
  rewrite backend_fir_canvas_run, fir_header_run. unfold Backend.layout_complaint.
  rewrite layout_fold_texts. reflexivity.
Qed.

(** X13: a complaint with N embedded newlines starts exactly
    [(N + 7) / 50] new pages: the first page takes 43 lines, every
    further page 50. *)
Theorem complaint_page_count output_filename fir_no victim_name fraud_amount
    complaint_text :
  Spec2.new_pages
    (ReportLab.code (Backend.fir_canvas output_filename fir_no victim_name
                       fraud_amount complaint_text))
  = ((PyStr.count PyStr.newline complaint_text + 7) / 50)%nat.
Proof.
  rewrite backend_fir_canvas_run, fir_header_run. unfold Backend.layout_complaint.
  change Spec.cursor_start with (nth 0 Spec.cursor_orbit 0%float).
  rewrite layout_fold_pages by lia.
  rewrite pages_from_closed by lia. rewrite split_length.
  change (0 <? 44)%nat with true. cbv iota. cbn [ReportLab.code].
  set (lines := S (PyStr.count PyStr.newline complaint_text)).
  change (Spec2.new_pages _) with 0%nat.
  subst lines. cbn [Nat.add]. f_equal. lia.
Qed.

(** Ninety-four lines: two new pages. *)
Example page_count_94_lines :
  Spec2.new_pages
    (ReportLab.code (Backend.fir_canvas (PyStr.lit "o.pdf") [] [] []
                       (repeat PyStr.newline 93))) = 2%nat.
Proof. vm_compute. reflexivity. Qed.

(** ** A whole session *)



(** X15: a generation, in either variant, leaves every other file of
    the output directory as it was. *)
Theorem generate_keeps_output_directory `{External} uuid fir_no fir_date
    section victim_name fraud_amount complaint_text current_user w name :
  Forall (fun c => c <> PosixPath.sep) name ->
  name <> Spec.fir_name uuid ->
  fs (snd (Backend.generate_fir uuid fir_no victim_name fraud_amount
             complaint_text current_user w))
    !! (PyStr.lit "generated_pdfs/" ++ name)
  = fs w !! (PyStr.lit "generated_pdfs/" ++ name)
  /\ fs (snd (Main.generate_fir uuid fir_no fir_date section victim_name
                fraud_amount complaint_text w))
       !! (PyStr.lit "generated_pdfs/" ++ name)
     = fs w !! (PyStr.lit "generated_pdfs/" ++ name).
Proof.
  intros _ Hname.
  assert (Hp : Spec.fir_path uuid <> PyStr.lit "generated_pdfs/" ++ name).
  { unfold Spec.fir_path. intros Heq. apply app_inv_head in Heq. congruence. }
  rewrite backend_generate_run, main_generate_run. cbn [snd fs].
  rewrite !lookup_insert_ne by exact Hp. auto.
Qed.

Lemma generate_keeps_output_directory_witness :
  let ext := Samples2.plain_external None in
  let w := mkWorld {[ PyStr.lit "generated_pdfs/FIR_1.pdf" := [Byte.x25] ]} [] 0 in
  fs (snd (Backend.generate_fir 7 [] [] [] [] Samples.admin w))
    !! PyStr.lit "generated_pdfs/FIR_1.pdf" = Some [Byte.x25]
  /\ fs (snd (Main.generate_fir 7 [] [] [] [] [] [] w))
       !! PyStr.lit "generated_pdfs/FIR_1.pdf" = Some [Byte.x25].
Proof.
  intros ext w.
  apply (generate_keeps_output_directory 7 [] [] [] [] [] [] Samples.admin w
           (PyStr.lit "FIR_1.pdf")).
  - apply Forall_forall. intros c Hc. apply list_elem_of_In in Hc.
    vm_compute in Hc. intuition (subst; discriminate).
  - vm_compute. discriminate.
Defined.
